(** * Weather service: cache-aside orchestration, history retention, rate limit

    A shallow embedding of the core of the weather service
    (apps/weather/{usecases,repositories,models,services,views,serializers,
    tasks}.py and apps/core/middleware.py), the properties its specification
    states, and further properties of the code.

    Conventions of the embedding:
    - a Python [str] is the list of its Unicode code points ([pystr]);
    - a Python [dict] with string keys is a [gmap string pyval];
    - time is an integer number of seconds; one use-case call reads the clock
      once ([now]), so [cached_at], [created_at] and [timestamp] written by
      one call carry the same instant;
    - a [try ... except] is a match on an [outcome];
    - the external stores (cache backend, database) may fail: every call takes
      a [Faults] record saying which backend operations raise. *)

From Stdlib Require Import ZArith NArith List String Ascii Bool Lia.
From Stdlib Require Import Decimal DecimalString.
From stdpp Require Import gmap strings list sorting.

Set Warnings "-register-all".

Abbreviation pystr := (list N).

(** An ASCII literal as a Python string. *)
Definition py (s : string) : pystr :=
  map N_of_ascii (list_ascii_of_string s).

(** ** Python string methods used by the service

    [str.strip], [str.title] and [str.lower] over the character data of
    Basic Latin and Latin-1 Supplement (U+0000..U+00FF), the images of these
    characters (U+0178, U+039C, U+03BC), and U+01F0 / U+030C.  Case mappings of
    code points outside this table are not represented (they are left
    unchanged), so general statements below are restricted to [latin1]
    strings.  The white-space set is the complete one of [str.isspace]. *)
Module PyStr.

Local Open Scope N_scope.

Definition between (lo hi c : N) : bool := (lo <=? c) && (c <=? hi).


Definition isspace (c : N) : bool :=
  between 0x09 0x0D c || between 0x1C 0x20 c || (c =? 0x85) || (c =? 0xA0)
  || (c =? 0x1680) || between 0x2000 0x200A c || (c =? 0x2028)
  || (c =? 0x2029) || (c =? 0x202F) || (c =? 0x205F) || (c =? 0x3000).

(** The Unicode property Cased (CPython's [_PyUnicode_IsCased]). *)
Definition iscased (c : N) : bool :=
  between 0x41 0x5A c || between 0x61 0x7A c
  || (c =? 0xAA) || (c =? 0xB5) || (c =? 0xBA)
  || between 0xC0 0xD6 c || between 0xD8 0xF6 c || between 0xF8 0xFF c
  || (c =? 0x178) || (c =? 0x39C) || (c =? 0x3BC) || (c =? 0x1F0).

(** Full lower-case mapping ([_PyUnicode_ToLowerFull]). *)
Definition tolower_full (c : N) : pystr :=
  if between 0x41 0x5A c then [c + 32]
  else if between 0xC0 0xDE c && negb (c =? 0xD7) then [c + 32]
  else if c =? 0x178 then [0xFF]
  else if c =? 0x39C then [0x3BC]
  else [c].

(** Full title-case mapping ([_PyUnicode_ToTitleFull]): sharp s becomes
    "Ss", j-with-caron becomes "J" followed by a combining caron. *)
Definition totitle_full (c : N) : pystr :=
  if between 0x61 0x7A c then [c - 32]
  else if between 0xE0 0xFE c && negb (c =? 0xF7) then [c - 32]
  else if c =? 0xFF then [0x178]
  else if c =? 0xB5 then [0x39C]
  else if c =? 0x3BC then [0x39C]
  else if c =? 0xDF then [0x53; 0x73]
  else if c =? 0x1F0 then [0x4A; 0x30C]
  else [c].

(** [str.title] (CPython's [do_title]): a character that follows a cased
    character is lower-cased, any other character is title-cased. *)
Fixpoint do_title (previous_is_cased : bool) (s : pystr) : pystr :=
  match s with
  | [] => []
  | c :: s' =>
      (if previous_is_cased then tolower_full c else totitle_full c)
        ++ do_title (iscased c) s'
  end.

Definition title (s : pystr) : pystr := do_title false s.

(** [str.lower]. *)
Definition lower (s : pystr) : pystr := flat_map tolower_full s.

Fixpoint lstrip (s : pystr) : pystr :=
  match s with
  | [] => []
  | c :: s' => if isspace c then lstrip s' else s
  end.

Definition rstrip (s : pystr) : pystr := rev (lstrip (rev s)).

(** [str.strip()] with no argument: white space off both ends. *)
Definition strip (s : pystr) : pystr := rstrip (lstrip s).

End PyStr.

(** [city.strip().title()], the normalization every entry point applies
    (usecases.py lines 111, 187, 213; views.py; serializers.py). *)
Definition strip_title (city : pystr) : pystr := PyStr.title (PyStr.strip city).

(** ** Python values, exceptions, outcomes *)

(** The values that travel in weather dictionaries and upstream JSON.  A
    [VFloat] holds the IEEE-754 binary64 bit pattern of a Python float; a
    [VDatetime] is an aware [datetime] (seconds).  Nested dictionaries are
    association lists; the dictionary a use case handles is a [gmap]. *)
Inductive pyval : Type :=
| VNone
| VBool (b : bool)
| VInt (n : Z)
| VFloat (bits : N)
| VStr (s : pystr)
| VList (items : list pyval)
| VDict (kv : list (string * pyval))
| VDatetime (t : Z).

Abbreviation wdict := (gmap string pyval).

(** Built-in exceptions that the modelled code can meet. *)
Inductive builtin_exn : Type :=
| KeyError (key : pyval)
| IndexError
| TypeError
| AttributeError
| ValueError
| DatabaseError
| CacheBackendError.

(** The text of a [WeatherServiceException].  The class carries one string;
    each constructor is one of the message templates of the source, which
    have pairwise different fixed prefixes:
    - [MsgNotConfigured]: "OpenWeatherMap API key not configured"
    - [MsgCityNotFound city]: "Cidade '{city}' não encontrada"
    - [MsgInvalidKey]: "Chave da API inválida"
    - [MsgApiError status]: "Erro na API: {status}"
    - [MsgConnection detail]: "Erro de conexão: {e}"
    - [MsgParse e]: "Erro ao processar dados da API: {e}"
    - [MsgMock]: "Mock error for testing"
    - [MsgInternal e]: "Erro interno do serviço: {e}" (use-case wrapper). *)
Inductive message : Type :=
| MsgNotConfigured
| MsgCityNotFound (city : pystr)
| MsgInvalidKey
| MsgApiError (status : Z)
| MsgConnection (detail : pystr)
| MsgParse (e : builtin_exn)
| MsgMock
| MsgInternal (e : builtin_exn).

Inductive exn : Type :=
| WeatherServiceException (msg : message)
| Builtin (e : builtin_exn).

(** The result of a call that may raise. *)
Inductive outcome (A : Type) : Type :=
| Return (a : A)
| Raise (e : exn).
Arguments Return {A} a.
Arguments Raise {A} e.

#[global] Instance outcome_ret : MRet outcome := fun A a => Return a.
#[global] Instance outcome_bind : MBind outcome := fun A B f m =>
  match m with
  | Return a => f a
  | Raise e => Raise e
  end.

(** What the model takes from the runtime and the database engine:
    the text of [datetime.isoformat()] and of [str(datetime)], the float
    result of [round(x, 1)], and the order in which the database returns two
    rows with equal [created_at] under [ORDER BY created_at DESC], which the
    query leaves to the engine ([db_tie_ids i j = true]: the row with primary
    key [i] is returned before the row with primary key [j]). *)
Record Env : Type := {
  isoformat : Z -> pystr;
  datetime_str : Z -> pystr;
  float_round1 : N -> N;
  db_tie_ids : Z -> Z -> bool
}.

(** [json.loads(json.dumps(v, default=str))]: JSON-native values come back
    unchanged, a [datetime] comes back as its [str]. *)
Fixpoint json_roundtrip (E : Env) (v : pyval) : pyval :=
  match v with
  | VList items => VList (map (json_roundtrip E) items)
  | VDict kv => VDict (map (fun p => (fst p, json_roundtrip E (snd p))) kv)
  | VDatetime t => VStr (datetime_str E t)
  | _ => v
  end.

(** Values without a [datetime] inside. *)
Fixpoint json_native (v : pyval) : bool :=
  match v with
  | VList items => forallb json_native items
  | VDict kv => forallb (fun p => json_native (snd p)) kv
  | VDatetime _ => false
  | _ => true
  end.

(** Which backend operations raise during one call. *)
Record Faults : Type := {
  cache_get_raises : bool;
  cache_set_raises : bool;
  cache_delete_raises : bool;
  db_create_raises : bool;
  db_delete_raises : bool;
  db_select_raises : bool
}.

Definition no_faults : Faults :=
  {| cache_get_raises := false; cache_set_raises := false;
     cache_delete_raises := false; db_create_raises := false;
     db_delete_raises := false; db_select_raises := false |}.

(** ** The cache backend ([django.core.cache.cache])

    A key-value store whose entries carry their expiry instant.  The two
    users of the store address disjoint key families ("weather_cache:..." and
    "rate_limit:..."), modelled as two typed stores: JSON text of a weather
    dictionary (kept as the dictionary it encodes) and integer counters. *)
Module Cache.

Section Store.
Context {A : Type}.

(** [cache.get(key)]: the value while the entry has not expired. *)
Definition get (m : gmap pystr (A * Z)) (now : Z) (key : pystr) : option A :=
  match m !! key with
  | Some (v, expires) => if bool_decide (now < expires)%Z then Some v else None
  | None => None
  end.

(** [cache.set(key, value, timeout)]: replaces the entry and its expiry. *)
Definition set (m : gmap pystr (A * Z)) (now : Z) (key : pystr) (v : A)
    (timeout : Z) : gmap pystr (A * Z) :=
  <[key := (v, (now + timeout)%Z)]> m.

(** [cache.delete(key)]. *)
Definition delete (m : gmap pystr (A * Z)) (key : pystr) : gmap pystr (A * Z) :=
  base.delete key m.

End Store.
End Cache.

(** ** The history table ([models.WeatherQuery]) *)
Module WeatherQuery.

Record t : Type := {
  id : Z;
  city : pystr;
  ip_address : pystr;
  temperature : pyval;
  description : pyval;
  humidity : pyval;
  pressure : pyval;
  wind_speed : pyval;
  country : pyval;
  created_at : Z
}.

(** [objects.filter(city=city, ip_address=ip_address)]. *)
Definition filter_key (c ip : pystr) (rows : list t) : list t :=
  filter (fun q => city q = c /\ ip_address q = ip) rows.

(** Whether [q] is returned before [r] by [ORDER BY created_at DESC]. *)
Definition precedes (E : Env) (q r : t) : bool :=
  bool_decide (created_at r < created_at q)%Z
  || (bool_decide (created_at r = created_at q) && db_tie_ids E (id q) (id r)).

Fixpoint insert_desc (E : Env) (q : t) (l : list t) : list t :=
  match l with
  | [] => [q]
  | r :: l' => if precedes E q r then q :: l else r :: insert_desc E q l'
  end.

(** [.order_by("-created_at")]. *)
Definition order_by_created_desc (E : Env) (rows : list t) : list t :=
  foldr (insert_desc E) [] rows.

(** Classmethod [WeatherQuery.cleanup_old_queries(city, ip_address, limit)].
    [queries[limit:]] raises for a negative [limit] (Django refuses negative
    indexing); [filter(id__in=...).delete()] removes the rows whose primary
    key is listed. *)
Definition cleanup_old_queries (E : Env) (c ip : pystr) (limit : Z)
    (rows : list t) : outcome (list t) :=
  let queries := order_by_created_desc E (filter_key c ip rows) in
  if bool_decide (limit < Z.of_nat (length queries))%Z then
    if bool_decide (limit < 0)%Z then Raise (Builtin ValueError)
    else
      let old_queries := drop (Z.to_nat limit) queries in
      let ids := id <$> old_queries in
      Return (filter (fun q => id q ∉ ids) rows)
  else Return rows.

End WeatherQuery.

(** The database: the rows of the history table in storage order and the
    next value of the auto-increment primary key. *)
Record Database : Type := {
  rows : list WeatherQuery.t;
  next_id : Z
}.

(** [dict.get(key, default)]. *)
Definition dict_get (d : wdict) (key : string) (default : pyval) : pyval :=
  match d !! key with
  | Some v => v
  | None => default
  end.

(** ** Repositories (repositories.py) *)
Module DjangoWeatherQueryRepository.

(** The row that [WeatherQuery.objects.create(...)] of [save_query] inserts
    under primary key [pk]. *)
Definition new_query (pk now : Z) (c ip : pystr) (weather_data : wdict)
    : WeatherQuery.t :=
  {| WeatherQuery.id := pk;
     WeatherQuery.city := c;
     WeatherQuery.ip_address := ip;
     WeatherQuery.temperature := dict_get weather_data "temperature" (VInt 0);
     WeatherQuery.description := dict_get weather_data "description" (VStr []);
     WeatherQuery.humidity := dict_get weather_data "humidity" VNone;
     WeatherQuery.pressure := dict_get weather_data "pressure" VNone;
     WeatherQuery.wind_speed := dict_get weather_data "wind_speed" VNone;
     WeatherQuery.country := dict_get weather_data "country" (VStr []);
     WeatherQuery.created_at := now |}.

(** [save_query]: a failure of the insert is logged and raised again. *)
Definition save_query (f : Faults) (now : Z) (c ip : pystr)
    (weather_data : wdict) (db : Database) : outcome (Database * WeatherQuery.t) :=
  if db_create_raises f then Raise (Builtin DatabaseError)
  else
    let query := new_query (next_id db) now c ip weather_data in
    Return ({| rows := rows db ++ [query]; next_id := (next_id db + 1)%Z |}, query).

(** [get_history]: the [limit] newest rows of the key; any exception
    (a failing database, a negative slice bound) is logged and gives []. *)
Definition get_history (E : Env) (f : Faults) (c ip : pystr) (limit : Z)
    (db : Database) : list WeatherQuery.t :=
  if db_select_raises f then []
  else if bool_decide (limit < 0)%Z then []
  else take (Z.to_nat limit)
         (WeatherQuery.order_by_created_desc E (WeatherQuery.filter_key c ip (rows db))).

(** [cleanup_old_queries]: any exception is logged and swallowed. *)
Definition cleanup_old_queries (E : Env) (f : Faults) (c ip : pystr) (limit : Z)
    (db : Database) : Database :=
  if db_delete_raises f then db
  else
    match WeatherQuery.cleanup_old_queries E c ip limit (rows db) with
    | Return rows' => {| rows := rows'; next_id := next_id db |}
    | Raise _ => db
    end.

End DjangoWeatherQueryRepository.

Module RedisWeatherCacheRepository.

Definition cache_prefix : pystr := py "weather_cache".

(** [_get_cache_key]: f"{self.cache_prefix}:{city.lower()}". *)
Definition _get_cache_key (c : pystr) : pystr :=
  cache_prefix ++ py ":" ++ PyStr.lower c.

(** [get_cached_weather]: the stored JSON text decoded, [None] when the key
    is absent or expired, and [None] when the backend raises.  The stored
    value is the text of a dictionary, never the empty string, so the test
    [if cached_data:] on it amounts to presence. *)
Definition get_cached_weather (E : Env) (f : Faults) (now : Z) (c : pystr)
    (store : gmap pystr (wdict * Z)) : option wdict :=
  if cache_get_raises f then None
  else
    match Cache.get store now (_get_cache_key c) with
    | Some cached_data => Some (json_roundtrip E <$> cached_data)
    | None => None
    end.

(** [cache_weather]: stamps ["cached_at"] into the caller's dictionary (the
    dictionary is shared, so the caller sees the new key) and stores its JSON
    text; a backend failure is logged and swallowed.  Returns the store and
    the dictionary as the caller now sees it. *)
Definition cache_weather (E : Env) (f : Faults) (now : Z) (c : pystr)
    (weather_data : wdict) (ttl_seconds : Z) (store : gmap pystr (wdict * Z))
    : gmap pystr (wdict * Z) * wdict :=
  let cache_key := _get_cache_key c in
  let weather_data := <["cached_at" := VStr (isoformat E now)]> weather_data in
  if cache_set_raises f then (store, weather_data)
  else (Cache.set store now cache_key weather_data ttl_seconds, weather_data).

(** [invalidate_cache]: a backend failure is logged and swallowed. *)
Definition invalidate_cache (f : Faults) (c : pystr)
    (store : gmap pystr (wdict * Z)) : gmap pystr (wdict * Z) :=
  if cache_delete_raises f then store
  else Cache.delete store (_get_cache_key c).

End RedisWeatherCacheRepository.

(** ** Weather providers (services.py) *)

(** Python operations on values, with the exception each raises. *)
Module Py.

Fixpoint assoc (key : string) (kv : list (string * pyval)) : option pyval :=
  match kv with
  | [] => None
  | (k, v) :: kv' => if bool_decide (k = key) then Some v else assoc key kv'
  end.

(** [v[key]] for a string key. *)
Definition getitem (v : pyval) (key : string) : outcome pyval :=
  match v with
  | VDict kv =>
      match assoc key kv with
      | Some x => Return x
      | None => Raise (Builtin (KeyError (VStr (py key))))
      end
  | _ => Raise (Builtin TypeError)
  end.

(** [v[0]]. *)
Definition getitem0 (v : pyval) : outcome pyval :=
  match v with
  | VList (x :: _) => Return x
  | VList [] => Raise (Builtin IndexError)
  | VStr (ch :: _) => Return (VStr [ch])
  | VStr [] => Raise (Builtin IndexError)
  | VDict _ => Raise (Builtin (KeyError (VInt 0)))
  | _ => Raise (Builtin TypeError)
  end.

(** [v.get(key, default)]. *)
Definition get (v : pyval) (key : string) (default : pyval) : outcome pyval :=
  match v with
  | VDict kv =>
      match assoc key kv with
      | Some x => Return x
      | None => Return default
      end
  | _ => Raise (Builtin AttributeError)
  end.

(** [round(v, 1)]. *)
Definition round1 (E : Env) (v : pyval) : outcome pyval :=
  match v with
  | VFloat bits => Return (VFloat (float_round1 E bits))
  | VInt n => Return (VInt n)
  | VBool b => Return (VInt (if b then 1 else 0))
  | _ => Raise (Builtin TypeError)
  end.

(** [v.title()]. *)
Definition title (v : pyval) : outcome pyval :=
  match v with
  | VStr s => Return (VStr (PyStr.title s))
  | _ => Raise (Builtin AttributeError)
  end.

End Py.

Module OpenWeatherMapService.

(** What [requests.get(url, params=..., timeout=10)] gives: a response with
    its status code and its decoded JSON body, or a [RequestException]. *)
Inductive http_result : Type :=
| Response (status_code : Z) (json : pyval)
| RequestException (detail : pystr).

(** The dictionary display of [_parse_weather_data], evaluated field by
    field in source order. *)
Definition weather_fields (E : Env) (data : pyval) : outcome wdict :=
  name ← Py.getitem data "name";
  sys ← Py.getitem data "sys";
  country ← Py.getitem sys "country";
  main ← Py.getitem data "main";
  temp ← Py.getitem main "temp";
  temperature ← Py.round1 E temp;
  weather ← Py.getitem data "weather";
  first ← Py.getitem0 weather;
  text ← Py.getitem first "description";
  description ← Py.title text;
  main ← Py.getitem data "main";
  humidity ← Py.getitem main "humidity";
  main ← Py.getitem data "main";
  pressure ← Py.getitem main "pressure";
  wind ← Py.get data "wind" (VDict []);
  wind_speed ← Py.get wind "speed" (VInt 0);
  mret (<["city" := name]> (<["country" := country]>
        (<["temperature" := temperature]> (<["description" := description]>
        (<["humidity" := humidity]> (<["pressure" := pressure]>
        (<["wind_speed" := wind_speed]>
        (<["provider" := VStr (py "openweathermap")]>
        (<["raw_data" := data]> ∅))))))))).

(** [_parse_weather_data]: of the exceptions of the display only a
    [KeyError] is turned into a [WeatherServiceException]. *)
Definition _parse_weather_data (E : Env) (data : pyval) : outcome wdict :=
  match weather_fields E data with
  | Raise (Builtin (KeyError k)) =>
      Raise (WeatherServiceException (MsgParse (KeyError k)))
  | r => r
  end.

(** [get_weather].  The [except requests.RequestException] clause catches
    what [requests.get] raises; the exceptions raised inside the [try] by the
    status branches and by the parser are of other classes and pass through. *)
Definition get_weather (E : Env) (api_key : pystr)
    (requests_get : pystr -> http_result) (c : pystr) : outcome wdict :=
  if bool_decide (api_key = []) then
    Raise (WeatherServiceException MsgNotConfigured)
  else
    match requests_get c with
    | Response status_code data =>
        if bool_decide (status_code = 200%Z) then _parse_weather_data E data
        else if bool_decide (status_code = 404%Z) then
          Raise (WeatherServiceException (MsgCityNotFound c))
        else if bool_decide (status_code = 401%Z) then
          Raise (WeatherServiceException MsgInvalidKey)
        else Raise (WeatherServiceException (MsgApiError status_code))
    | RequestException detail =>
        Raise (WeatherServiceException (MsgConnection detail))
    end.

End OpenWeatherMapService.

Module MockWeatherService.

Definition get_weather (c : pystr) : outcome wdict :=
  if bool_decide (PyStr.lower c ∈ [py "error"; py "fail"]) then
    Raise (WeatherServiceException MsgMock)
  else if bool_decide (PyStr.lower c = py "notfound") then
    Raise (WeatherServiceException (MsgCityNotFound c))
  else
    Return (<["city" := VStr (PyStr.title c)]> (<["country" := VStr (py "BR")]>
           (<["temperature" := VFloat 0x4039000000000000]>
           (<["description" := VStr (py "Ensolarado")]>
           (<["humidity" := VInt 60]> (<["pressure" := VFloat 0x408FAA0000000000]>
           (<["wind_speed" := VFloat 0x4016000000000000]>
           (<["provider" := VStr (py "mock")]>
           (<["raw_data" := VDict [("mock"%string, VBool true)]]> ∅))))))))).

End MockWeatherService.

(** The domain error kinds of the provider contract, as the specification
    names them (the source distinguishes them by message text only). *)
Inductive error_kind : Type :=
| NotConfigured
| NotFound
| Unauthorized
| UpstreamError (code : Z)
| ConnectionError
| ParseError.

(** The kind a provider message stands for; the mock's synthetic error and the
    use-case wrapper are not provider kinds. *)
Definition kind_of (m : message) : option error_kind :=
  match m with
  | MsgNotConfigured => Some NotConfigured
  | MsgCityNotFound _ => Some NotFound
  | MsgInvalidKey => Some Unauthorized
  | MsgApiError status => Some (UpstreamError status)
  | MsgConnection _ => Some ConnectionError
  | MsgParse _ => Some ParseError
  | MsgMock => None
  | MsgInternal _ => None
  end.

(** ** Use cases (usecases.py) *)

(** What the use cases act on: the weather entries of the cache backend, the
    database, and the log of the cities asked from the weather provider. *)
Record World : Type := {
  cache : gmap pystr (wdict * Z);
  database : Database;
  provider_calls : list pystr
}.

(** The weather provider a use case is constructed with: what
    [weather_service.get_weather(city)] gives when asked at instant [now]. *)
Abbreviation weather_service_t := (Z -> pystr -> outcome wdict).

Module GetWeatherUseCase.

Definition ONE_MINUTE : Z := 60.

(** [_save_to_history]: save, then trim the key to its last 10; any exception
    of either step is logged and dropped. *)
Definition _save_to_history (E : Env) (f : Faults) (now : Z) (c ip : pystr)
    (weather_data : wdict) (db : Database) : Database :=
  match DjangoWeatherQueryRepository.save_query f now c ip weather_data db with
  | Return (db', _) =>
      DjangoWeatherQueryRepository.cleanup_old_queries E f c ip 10 db'
  | Raise _ => db
  end.

(** [if cached_data:] on what [get_cached_weather] returned. *)
Definition truthy (cached_data : option wdict) : bool :=
  match cached_data with
  | Some d => bool_decide (d ≠ ∅)
  | None => false
  end.

Definition execute (E : Env) (weather_service : weather_service_t)
    (f : Faults) (now : Z) (city ip_address : pystr) (w : World)
    : World * outcome wdict :=
  let c := strip_title city in
  let cached_data :=
    RedisWeatherCacheRepository.get_cached_weather E f now c (cache w) in
  if truthy cached_data then
    let cached_data := default ∅ cached_data in
    (w, Return (<["timestamp" := VDatetime now]>
                 (<["cached" := VBool true]> cached_data)))
  else
    let calls := provider_calls w ++ [c] in
    match weather_service now c with
    | Return weather_data =>
        let '(store, weather_data) :=
          RedisWeatherCacheRepository.cache_weather E f now c weather_data
            ONE_MINUTE (cache w) in
        let db := _save_to_history E f now c ip_address weather_data (database w) in
        ({| cache := store; database := db; provider_calls := calls |},
         Return (<["timestamp" := VDatetime now]>
                  (<["cached" := VBool false]> weather_data)))
    | Raise (WeatherServiceException e) =>
        ({| cache := cache w; database := database w; provider_calls := calls |},
         Raise (WeatherServiceException e))
    | Raise (Builtin e) =>
        ({| cache := cache w; database := database w; provider_calls := calls |},
         Raise (WeatherServiceException (MsgInternal e)))
    end.

End GetWeatherUseCase.

Module GetWeatherHistoryUseCase.

(** The dictionary [{"city", "queries", "total", "limit"}]. *)
Record history_data : Type := {
  city : pystr;
  queries : list WeatherQuery.t;
  total : Z;
  limit : Z
}.

(** [execute].  The [except Exception] clause of the source is never entered:
    [get_history] swallows its own failures and returns []. *)
Definition execute (E : Env) (f : Faults) (city_name ip_address : pystr)
    (lim : Z) (w : World) : outcome history_data :=
  let c := strip_title city_name in
  let qs := DjangoWeatherQueryRepository.get_history E f c ip_address lim (database w) in
  Return {| city := c; queries := qs; total := Z.of_nat (length qs); limit := lim |}.

End GetWeatherHistoryUseCase.

Module InvalidateCacheUseCase.

Definition execute (f : Faults) (city : pystr) (w : World) : World :=
  let c := strip_title city in
  {| cache := RedisWeatherCacheRepository.invalidate_cache f c (cache w);
     database := database w;
     provider_calls := provider_calls w |}.

End InvalidateCacheUseCase.

Module CleanupHistoryUseCase.

Definition execute (E : Env) (f : Faults) (c ip_address : pystr) (limit : Z)
    (w : World) : World :=
  {| cache := cache w;
     database :=
       DjangoWeatherQueryRepository.cleanup_old_queries E f c ip_address limit
         (database w);
     provider_calls := provider_calls w |}.

End CleanupHistoryUseCase.

(** ** The history endpoint (views.py) *)

(** What [int(str)] takes from the interpreter: [Py_UNICODE_TODECIMAL] for
    the characters outside ASCII (the decimal digits of the interpreter's
    Unicode database) and [sys.get_int_max_str_digits()] (4300 unless
    configured; 0 switches the limit off, as in interpreters without it). *)
Record Interpreter : Type := {
  todecimal : N -> option Z;
  int_max_str_digits : Z
}.

(** [int(s)] for a string, base 10 (CPython's [PyLong_FromUnicodeObject]).
    A string that is not pure ASCII is first rewritten character by
    character: a character below 127 stays, any other white space becomes a
    space, a decimal digit becomes its ASCII digit and anything else "?"
    (which no later step accepts).  The ASCII text is then read as: white
    space of the C locale, an optional sign, decimal digits with single
    underscores between them, white space.  A text with more digits than the
    interpreter's limit is refused.  [None] stands for [ValueError]. *)
Module PyInt.

(** [Py_ISSPACE]: tab, line feed, vertical tab, form feed, carriage return,
    space. *)
Definition ascii_isspace (ch : N) : bool :=
  PyStr.between 0x09 0x0D ch || (ch =? 0x20)%N.

(** One character of [_PyUnicode_TransformDecimalAndSpaceToASCII]. *)
Definition to_ascii (I : Interpreter) (ch : N) : N :=
  if (ch <? 127)%N then ch
  else if PyStr.isspace ch then 0x20%N
  else
    match todecimal I ch with
    | Some d => (0x30 + Z.to_N d)%N
    | None => 0x3F%N
    end.

Definition transform (I : Interpreter) (s : pystr) : pystr :=
  if forallb (fun ch => (ch <? 128)%N) s then s else map (to_ascii I) s.

Fixpoint lstrip (s : pystr) : pystr :=
  match s with
  | [] => []
  | ch :: s' => if ascii_isspace ch then lstrip s' else s
  end.

Definition strip (s : pystr) : pystr := rev (lstrip (rev (lstrip s))).

Definition digit (ch : N) : option Z :=
  if PyStr.between 0x30 0x39 ch then Some (Z.of_N (ch - 0x30)) else None.

(** The value of the digits read so far and their number (underscores not
    counted, leading zeros counted). *)
Fixpoint digits (acc count : Z) (after_digit : bool) (s : pystr)
    : option (Z * Z) :=
  match s with
  | [] => if after_digit then Some (acc, count) else None
  | ch :: s' =>
      if (ch =? 0x5F)%N then
        if after_digit then digits acc count false s' else None
      else
        match digit ch with
        | Some d => digits (10 * acc + d)%Z (count + 1)%Z true s'
        | None => None
        end
  end.

(** The digits without the sign; the limit is looked at for more than 640
    digits only ([_PY_LONG_MAX_STR_DIGITS_THRESHOLD]). *)
Definition unsigned (I : Interpreter) (r : pystr) : option Z :=
  match digits 0 0 false r with
  | Some (value, count) =>
      if bool_decide (640 < count)%Z
         && bool_decide (0 < int_max_str_digits I)%Z
         && bool_decide (int_max_str_digits I < count)%Z
      then None
      else Some value
  | None => None
  end.

Definition int (I : Interpreter) (s : pystr) : option Z :=
  match strip (transform I s) with
  | 0x2D%N :: r => Z.opp <$> unsigned I r
  | 0x2B%N :: r => unsigned I r
  | r => unsigned I r
  end.

End PyInt.

Module WeatherHistoryView.

Inductive response : Type :=
| BadRequest
| Ok200 (data : GetWeatherHistoryUseCase.history_data)
| InternalServerError.

(** Lines 140-145: [int(request.query_params.get("limit", 10))] guarded by the
    range test, with the fallback of the [except] clause.  [parsed] is what
    [int(...)] gave, [None] when it raised. *)
Definition guard_limit (parsed : option Z) : Z :=
  match parsed with
  | Some limit => if bool_decide (limit < 1 \/ limit > 50)%Z then 10%Z else limit
  | None => 10%Z
  end.

Definition parse_limit (I : Interpreter) (raw : option pystr) : Z :=
  guard_limit (match raw with
               | None => Some 10%Z   (* int(10) *)
               | Some s => PyInt.int I s
               end).

(** [get]: the data handed to the response serializer. *)
Definition get (E : Env) (I : Interpreter) (f : Faults)
    (city_param limit_param : option pystr) (ip_address : pystr) (w : World)
    : response :=
  match city_param with
  | None => BadRequest
  | Some [] => BadRequest
  | Some city =>
      let limit := parse_limit I limit_param in
      let city := strip_title city in
      match GetWeatherHistoryUseCase.execute E f city ip_address limit w with
      | Return history_data => Ok200 history_data
      | Raise _ => InternalServerError
      end
  end.

End WeatherHistoryView.

(** ** The rate limit middleware (core/middleware.py) *)
Module RateLimitMiddleware.

Record Settings : Type := {
  RATE_LIMIT_REQUESTS : Z;
  RATE_LIMIT_WINDOW : Z;
  TESTING : bool;
  BDD_RATE_LIMITING_ENABLED : bool
}.

Record Request : Type := {
  path : pystr;
  HTTP_X_FORWARDED_FOR : option pystr;
  REMOTE_ADDR : option pystr
}.

(** What [__call__] returns: the response of the wrapped handler
    ([self.get_response(request)]) or the 429 response. *)
Inductive reply : Type :=
| GetResponse
| TooManyRequests (requests_limit window_seconds retry_after : Z).

(** [s.split(",")[0]]. *)
Fixpoint before_comma (s : pystr) : pystr :=
  match s with
  | [] => []
  | ch :: s' => if (ch =? 0x2C)%N then [] else ch :: before_comma s'
  end.

Definition get_client_ip (request : Request) : option pystr :=
  match HTTP_X_FORWARDED_FOR request with
  | Some (ch :: s) => Some (before_comma (ch :: s))
  | _ => REMOTE_ADDR request
  end.

(** f"rate_limit:{ip_address}". *)
Definition cache_key (ip_address : option pystr) : pystr :=
  py "rate_limit:" ++ match ip_address with
                      | Some ip => ip
                      | None => py "None"
                      end.

(** [cache.get(cache_key, 0)]. *)
Definition current_requests (store : gmap pystr (Z * Z)) (now : Z)
    (ip_address : option pystr) : Z :=
  default 0%Z (Cache.get store now (cache_key ip_address)).

Definition is_rate_limited (s : Settings) (store : gmap pystr (Z * Z)) (now : Z)
    (ip_address : option pystr) : bool :=
  bool_decide (current_requests store now ip_address >= RATE_LIMIT_REQUESTS s)%Z.

Definition record_request (s : Settings) (store : gmap pystr (Z * Z)) (now : Z)
    (ip_address : option pystr) : gmap pystr (Z * Z) :=
  Cache.set store now (cache_key ip_address)
    (current_requests store now ip_address + 1)%Z (RATE_LIMIT_WINDOW s).

Fixpoint startswith (s prefix : pystr) : bool :=
  match prefix, s with
  | [], _ => true
  | p :: prefix', ch :: s' => (ch =? p)%N && startswith s' prefix'
  | _ :: _, [] => false
  end.

Definition call (s : Settings) (now : Z) (request : Request)
    (store : gmap pystr (Z * Z)) : gmap pystr (Z * Z) * reply :=
  if bool_decide (path request ∈ [py "/health/"; py "/metrics"]) then
    (store, GetResponse)
  else if TESTING s && negb (BDD_RATE_LIMITING_ENABLED s) then
    (store, GetResponse)
  else if negb (bool_decide (path request = py "/api/v1/weather/")
                || startswith (path request) (py "/api/v1/weather/?")) then
    (store, GetResponse)
  else
    let ip_address := get_client_ip request in
    if is_rate_limited s store now ip_address then
      (store, TooManyRequests (RATE_LIMIT_REQUESTS s) (RATE_LIMIT_WINDOW s)
                (RATE_LIMIT_WINDOW s))
    else
      (record_request s store now ip_address, GetResponse).

(** A client's attempts on the weather endpoint, one per instant of [times],
    in order: the store afterwards and, for each attempt, whether it passed. *)
Fixpoint attempts (s : Settings) (request : Request) (times : list Z)
    (store : gmap pystr (Z * Z)) : gmap pystr (Z * Z) * list bool :=
  match times with
  | [] => (store, [])
  | now :: times' =>
      let '(store', r) := call s now request store in
      let '(store'', rs) := attempts s request times' store' in
      (store'', match r with GetResponse => true | _ => false end :: rs)
  end.

End RateLimitMiddleware.

(** ** Notions used by the statements *)

(** The call [GetWeatherUseCase.execute] at [now] finds a usable cache entry. *)
Definition cache_hit (E : Env) (f : Faults) (now : Z) (city : pystr) (w : World)
    : bool :=
  GetWeatherUseCase.truthy
    (RedisWeatherCacheRepository.get_cached_weather E f now (strip_title city)
       (cache w)).

(** A weather dictionary as a use case returns it: the serving metadata
    ["cached"] and ["timestamp"] written over the data. *)
Definition served (cached : bool) (now : Z) (d : wdict) : wdict :=
  <["timestamp" := VDatetime now]> (<["cached" := VBool cached]> d).

(** The dictionary of a fresh fetch after [cache_weather] stamped it. *)
Definition fetched (E : Env) (now : Z) (d : wdict) : wdict :=
  <["cached_at" := VStr (isoformat E now)]> d.

(** The limit rule in the words of the specification: the requested value
    clamped to the interval 1..50, and 10 when the parameter is missing or
    invalid ([parsed = None]). *)
Definition spec_clamped_limit (parsed : option Z) : Z :=
  match parsed with
  | Some n => Z.max 1 (Z.min 50 n)
  | None => 10%Z
  end.

(** What [int(request.query_params.get("limit", 10))] evaluates to. *)
Definition parsed_limit (I : Interpreter) (raw : option pystr) : option Z :=
  match raw with
  | None => Some 10%Z
  | Some s => PyInt.int I s
  end.

(** Newest first: [q] may stand before [r]. *)
Definition newer_or_equal (q r : WeatherQuery.t) : Prop :=
  (WeatherQuery.created_at r <= WeatherQuery.created_at q)%Z.

(** The outcome is not a [WeatherServiceException]. *)
Definition builtin_only {A : Type} (o : outcome A) : Prop :=
  match o with
  | Raise (WeatherServiceException _) => False
  | _ => True
  end.

(** The request is one the middleware counts: none of the three early
    returns of [__call__] is taken. *)
Definition rate_limit_applies (s : RateLimitMiddleware.Settings)
    (request : RateLimitMiddleware.Request) : bool :=
  negb (bool_decide (RateLimitMiddleware.path request
                       ∈ [py "/health/"; py "/metrics"]))
  && negb (RateLimitMiddleware.TESTING s
           && negb (RateLimitMiddleware.BDD_RATE_LIMITING_ENABLED s))
  && (bool_decide (RateLimitMiddleware.path request = py "/api/v1/weather/")
      || RateLimitMiddleware.startswith (RateLimitMiddleware.path request)
           (py "/api/v1/weather/?")).



(** Auxiliary notions for reasoning on [str.title] and [str.strip]. *)
Module PyStrFacts.








End PyStrFacts.

(** Newest first, on instants. *)
Definition later_or_equal (a b : Z) : Prop := (b <= a)%Z.

(** Primary keys are unique and below the next value of the sequence. *)
Definition database_ok (db : Database) : Prop :=
  NoDup (fmap WeatherQuery.id (rows db))
  /\ Forall (fun q => (WeatherQuery.id q < next_id db)%Z) (rows db).

(** The creation instants of the rows of a key, newest first. *)
Definition key_times (E : Env) (c ip : pystr) (db : Database) : list Z :=
  fmap WeatherQuery.created_at
    (WeatherQuery.order_by_created_desc E (WeatherQuery.filter_key c ip (rows db))).

(** The retention rule in the words of the specification: of the rows of
    the key, the [n] most recent by creation instant, a tie going to the
    higher primary key. *)
Definition spec_retained (E : Env) (c ip : pystr) (n : nat)
    (rows : list WeatherQuery.t) : list WeatherQuery.t :=
  let by_higher_id :=
    {| isoformat := isoformat E; datetime_str := datetime_str E;
       float_round1 := float_round1 E;
       db_tie_ids := fun i j => bool_decide (j < i)%Z |} in
  take n (WeatherQuery.order_by_created_desc by_higher_id
            (WeatherQuery.filter_key c ip rows)).

(** The steps of a run on one (city, client) key: a call of GetWeather, or
    a cache invalidation in between. *)
Inductive step : Type :=
| Fetch (now : Z) (f : Faults)
| Invalidate (f : Faults) (city : pystr).

Definition do_step (E : Env) (ws : weather_service_t) (city ip : pystr)
    (s : step) (w : World) : World :=
  match s with
  | Fetch now f => fst (GetWeatherUseCase.execute E ws f now city ip w)
  | Invalidate f c => InvalidateCacheUseCase.execute f c w
  end.

Fixpoint run (E : Env) (ws : weather_service_t) (city ip : pystr)
    (steps : list step) (w : World) : World :=
  match steps with
  | [] => w
  | s :: steps' => run E ws city ip steps' (do_step E ws city ip s w)
  end.

(** The call is a successful cache-miss fetch with a working history store. *)
Definition fresh_fetch (E : Env) (ws : weather_service_t) (city : pystr)
    (now : Z) (f : Faults) (w : World) : bool :=
  negb (cache_hit E f now city w)
  && match ws now (strip_title city) with
     | Return _ => true
     | Raise _ => false
     end
  && negb (db_create_raises f) && negb (db_delete_raises f).

(** Every GetWeather call of the run is such a fetch. *)
Fixpoint fresh_run (E : Env) (ws : weather_service_t) (city ip : pystr)
    (steps : list step) (w : World) : bool :=
  match steps with
  | [] => true
  | s :: steps' =>
      match s with
      | Fetch now f => fresh_fetch E ws city now f w
      | Invalidate _ _ => true
      end
      && fresh_run E ws city ip steps' (do_step E ws city ip s w)
  end.

(** The instants of the GetWeather calls of a run, in order. *)
Fixpoint fetch_times (steps : list step) : list Z :=
  match steps with
  | [] => []
  | Fetch now _ :: steps' => now :: fetch_times steps'
  | Invalidate _ _ :: steps' => fetch_times steps'
  end.

(** ** Sample data *)
Module Sample.

Definition E0 : Env :=
  {| isoformat := fun _ => py "2024-01-01T00:00:00+00:00";
     datetime_str := fun _ => py "2024-01-01 00:00:00+00:00";
     float_round1 := fun bits => bits;
     db_tie_ids := fun i j => bool_decide (i < j)%Z |}.

Definition sao_paulo_lower : pystr := ([0x73; 0xE3; 0x6F] ++ py " paulo")%N.
Definition sao_paulo_upper : pystr := ([0x53; 0xC3; 0x4F] ++ py " PAULO")%N.
Definition sao_paulo : pystr := ([0x53; 0xE3; 0x6F] ++ py " Paulo")%N.

Definition client : pystr := py "1.2.3.4".

Definition mock : weather_service_t := fun _ c => MockWeatherService.get_weather c.

Definition empty_world : World :=
  {| cache := ∅; database := {| rows := []; next_id := 1 |}; provider_calls := [] |}.

(** The world after one fetch of São Paulo at instant 100. *)
Definition warm_world : World :=
  fst (GetWeatherUseCase.execute E0 mock no_faults 100 sao_paulo client empty_world).

Definition cache_down : Faults :=
  {| cache_get_raises := true; cache_set_raises := true;
     cache_delete_raises := true; db_create_raises := false;
     db_delete_raises := false; db_select_raises := false |}.

Definition database_down : Faults :=
  {| cache_get_raises := false; cache_set_raises := false;
     cache_delete_raises := false; db_create_raises := true;
     db_delete_raises := true; db_select_raises := true |}.

Definition settings : RateLimitMiddleware.Settings :=
  {| RateLimitMiddleware.RATE_LIMIT_REQUESTS := 5;
     RateLimitMiddleware.RATE_LIMIT_WINDOW := 60;
     RateLimitMiddleware.TESTING := false;
     RateLimitMiddleware.BDD_RATE_LIMITING_ENABLED := false |}.

Definition weather_path : pystr := py "/api/v1/weather/".

Definition request_to (p : pystr) : RateLimitMiddleware.Request :=
  {| RateLimitMiddleware.path := p;
     RateLimitMiddleware.HTTP_X_FORWARDED_FOR := None;
     RateLimitMiddleware.REMOTE_ADDR := Some client |}.

(** Two rows of one key created at the same instant, in storage order. *)
Definition tied_rows : list WeatherQuery.t :=
  [DjangoWeatherQueryRepository.new_query 1 100 sao_paulo client ∅;
   DjangoWeatherQueryRepository.new_query 2 100 sao_paulo client ∅].

(** Eleven fetches, one a minute. *)
Definition eleven_fetches : list step :=
  (fun k => Fetch (60 * k) no_faults) <$> [0; 1; 2; 3; 4; 5; 6; 7; 8; 9; 10]%Z.

(** An upstream answer 200 whose ["weather"] list is empty. *)
Definition empty_weather_body : pyval :=
  VDict [("name"%string, VStr sao_paulo);
         ("sys"%string, VDict [("country"%string, VStr (py "BR"))]);
         ("main"%string,
          VDict [("temp"%string, VFloat 0x4039000000000000);
                 ("humidity"%string, VInt 60);
                 ("pressure"%string, VFloat 0x408FAA0000000000)]);
         ("weather"%string, VList []);
         ("wind"%string, VDict [("speed"%string, VFloat 0x4016000000000000)])].

Definition upstream_empty_weather : pystr -> OpenWeatherMapService.http_result :=
  fun _ => OpenWeatherMapService.Response 200 empty_weather_body.

(** The decimal digits of Unicode 14.0 (the database of CPython 3.11): they
    come in runs of ten; the list holds the digit zero of every run. *)
Definition decimal_zeros : list N :=
  [0x30; 0x660; 0x6F0; 0x7C0; 0x966; 0x9E6; 0xA66; 0xAE6; 0xB66; 0xBE6; 0xC66;
   0xCE6; 0xD66; 0xDE6; 0xE50; 0xED0; 0xF20; 0x1040; 0x1090; 0x17E0; 0x1810;
   0x1946; 0x19D0; 0x1A80; 0x1A90; 0x1B50; 0x1BB0; 0x1C40; 0x1C50; 0xA620;
   0xA8D0; 0xA900; 0xA9D0; 0xA9F0; 0xAA50; 0xABF0; 0xFF10; 0x104A0; 0x10D30;
   0x11066; 0x110F0; 0x11136; 0x111D0; 0x112F0; 0x11450; 0x114D0; 0x11650;
   0x116C0; 0x11730; 0x118E0; 0x11950; 0x11C50; 0x11D50; 0x11DA0; 0x16A60;
   0x16AC0; 0x16B50; 0x1D7CE; 0x1D7D8; 0x1D7E2; 0x1D7EC; 0x1D7F6; 0x1E140;
   0x1E2F0; 0x1E950; 0x1FBF0]%N.

Definition unicode_decimal (ch : N) : option Z :=
  match List.filter (fun first => PyStr.between first (first + 9)%N ch)
          decimal_zeros with
  | first :: _ => Some (Z.of_N (ch - first))
  | [] => None
  end.

(** CPython 3.11 with its default settings. *)
Definition cpython : Interpreter :=
  {| todecimal := unicode_decimal; int_max_str_digits := 4300 |}.

End Sample.

(** * Further parts of the service *)

(** ** The database cache (models.py [WeatherCache], repositories.py
    [DatabaseWeatherCacheRepository])

    The column [city] is declared unique, so the table is a finite map from
    the city to the rest of the row. *)
Module WeatherCache.

Record t : Type := {
  data : wdict;
  created_at : Z;
  expires_at : Z
}.

(** Property [is_expired]: [timezone.now() > self.expires_at]. *)
Definition is_expired (now : Z) (cache_entry : t) : bool :=
  bool_decide (expires_at cache_entry < now)%Z.

(** Classmethod [cleanup_expired]: [filter(expires_at__lt=now).delete()]. *)
Definition cleanup_expired (now : Z) (table : gmap pystr t) : gmap pystr t :=
  filter (fun row => ~ (expires_at row.2 < now)%Z) table.

End WeatherCache.

Module DatabaseWeatherCacheRepository.

(** What the JSON column accepts: the field encodes with the plain JSON
    encoder, which raises [TypeError] on a [datetime]. *)
Definition json_serializable (weather_data : wdict) : bool :=
  bool_decide (map_Forall (fun _ v => json_native v = true) weather_data).

(** [get_cached_weather]: the data of the entry of [city.lower()] unless it
    has expired; an expired entry is deleted on the way; any exception gives
    [None].  Returns the table afterwards and the result. *)
Definition get_cached_weather (f : Faults) (now : Z) (c : pystr)
    (table : gmap pystr WeatherCache.t)
    : gmap pystr WeatherCache.t * option wdict :=
  if db_select_raises f then (table, None)
  else
    match table !! PyStr.lower c with
    | Some cache_entry =>
        if negb (WeatherCache.is_expired now cache_entry) then
          (table, Some (WeatherCache.data cache_entry))
        else if db_delete_raises f then (table, None)
        else (delete (PyStr.lower c) table, None)
    | None => (table, None)
    end.

(** [cache_weather]: stamps ["cached_at"] into the caller's dictionary, then
    [update_or_create] on the city; any exception is logged and swallowed.
    Returns the table and the dictionary as the caller now sees it. *)
Definition cache_weather (E : Env) (f : Faults) (now : Z) (c : pystr)
    (weather_data : wdict) (ttl_seconds : Z)
    (table : gmap pystr WeatherCache.t)
    : gmap pystr WeatherCache.t * wdict :=
  let expires_at := (now + ttl_seconds)%Z in
  let weather_data := <["cached_at" := VStr (isoformat E now)]> weather_data in
  if db_create_raises f || negb (json_serializable weather_data) then
    (table, weather_data)
  else
    (<[PyStr.lower c := {| WeatherCache.data := weather_data;
                           WeatherCache.expires_at := expires_at;
                           WeatherCache.created_at := now |}]> table,
     weather_data).

(** [invalidate_cache]: [filter(city=city.lower()).delete()], failures
    swallowed. *)
Definition invalidate_cache (f : Faults) (c : pystr)
    (table : gmap pystr WeatherCache.t) : gmap pystr WeatherCache.t :=
  if db_delete_raises f then table
  else delete (PyStr.lower c) table.

End DatabaseWeatherCacheRepository.

(** ** Periodic tasks (tasks.py)

    A task logs and raises again whatever a statement of its body raises;
    its return text is represented by the number it reports.

    The two history tasks start from a DISTINCT query on a model whose
    default ordering is [-created_at]; the ordering column takes part in the
    DISTINCT, so a city (or a city and client) can come more than once, in an
    order the database chooses.  The tasks are therefore given the list the
    query returned ([unique_cities], [unique_combinations]). *)
Module Tasks.





(** [cleanup_expired_cache_entries]: counts the entries expired at [now],
    then [WeatherCache.cleanup_expired()], which reads the clock again
    ([now']). *)
Definition cleanup_expired_cache_entries (f : Faults) (now now' : Z)
    (table : gmap pystr WeatherCache.t)
    : outcome (gmap pystr WeatherCache.t * Z) :=
  if db_select_raises f then Raise (Builtin DatabaseError)
  else
    let expired_count :=
      Z.of_nat (size (filter (fun row => (WeatherCache.expires_at row.2 < now)%Z)
                        table)) in
    if db_delete_raises f then Raise (Builtin DatabaseError)
    else Return (WeatherCache.cleanup_expired now' table, expired_count).

End Tasks.

(** ** The provider a use case is constructed with (services.py
    [WeatherServiceFactory], usecases.py [GetWeatherUseCase.__init__]) *)
Inductive weather_service_class : Type :=
| OpenWeatherMapServiceClass
| MockWeatherServiceClass.

Module WeatherServiceFactory.

Definition create_service (provider : pystr) : outcome weather_service_class :=
  if bool_decide (provider = py "openweathermap") then
    Return OpenWeatherMapServiceClass
  else if bool_decide (provider = py "mock") then
    Return MockWeatherServiceClass
  else Raise (Builtin ValueError).

End WeatherServiceFactory.

Module GetWeatherUseCaseInit.

(** Lines 84-91, for [weather_service=None]: [api_key] is the setting
    [OPENWEATHER_API_KEY]; [create_service()] has the default argument
    "openweathermap". *)
Definition default_weather_service (api_key : pystr)
    : outcome weather_service_class :=
  if bool_decide (api_key = [])
     || bool_decide (api_key = py "your_openweathermap_api_key_here") then
    WeatherServiceFactory.create_service (py "mock")
  else WeatherServiceFactory.create_service (py "openweathermap").

(** [get_weather] of an instance of the class; [OpenWeatherMapService]
    reads the same setting in its constructor. *)
Definition get_weather (E : Env) (api_key : pystr)
    (requests_get : pystr -> OpenWeatherMapService.http_result)
    (service : weather_service_class) : weather_service_t :=
  fun _ c =>
    match service with
    | OpenWeatherMapServiceClass =>
        OpenWeatherMapService.get_weather E api_key requests_get c
    | MockWeatherServiceClass => MockWeatherService.get_weather c
    end.

End GetWeatherUseCaseInit.

(** ** The weather endpoint (views.py [WeatherView], serializers.py) *)
Module PyText.

(** [str(n)] of an [int]. *)
Definition str_int (n : Z) : pystr :=
  py (NilZero.string_of_int (Z.to_int n)).

(** [sub in s]. *)
Fixpoint contains (s sub : pystr) : bool :=
  RateLimitMiddleware.startswith s sub
  || match s with
     | [] => false
     | _ :: s' => contains s' sub
     end.

End PyText.

(** [str(e)] of a [WeatherServiceException]: the message templates of
    services.py and usecases.py, [exn_str] giving the text of a built-in
    exception. *)
Definition message_text (exn_str : builtin_exn -> pystr) (m : message)
    : pystr :=
  match m with
  | MsgNotConfigured => py "OpenWeatherMap API key not configured"
  | MsgCityNotFound city =>
      py "Cidade '" ++ city ++ py "' n" ++ [0xE3%N] ++ py "o encontrada"
  | MsgInvalidKey => py "Chave da API inv" ++ [0xE1%N] ++ py "lida"
  | MsgApiError status => py "Erro na API: " ++ PyText.str_int status
  | MsgConnection detail => py "Erro de conex" ++ [0xE3%N] ++ py "o: " ++ detail
  | MsgParse e => py "Erro ao processar dados da API: " ++ exn_str e
  | MsgMock => py "Mock error for testing"
  | MsgInternal e =>
      py "Erro interno do servi" ++ [0xE7%N] ++ py "o: " ++ exn_str e
  end.

Module WeatherRequestSerializer.

(** [validate_city], applied to the value the [CharField] accepted. *)
Definition validate_city (value : pystr) : option pystr :=
  if bool_decide (value = []) || bool_decide (PyStr.strip value = []) then None
  else Some (strip_title value).

End WeatherRequestSerializer.

Module WeatherView.

Inductive response : Type :=
| BadRequest
| Ok200 (weather_data : wdict)
| NotFound404 (message : pystr)
| InternalServerError (message : option pystr).

Definition not_found_phrase : pystr :=
  py "n" ++ [0xE3%N] ++ py "o encontrada".

(** Lines 63-82: the response for what [use_case.execute] gave.  [Ok200]
    carries the dictionary handed to the response serializer. *)
Definition respond (exn_str : builtin_exn -> pystr) (result : outcome wdict)
    : response :=
  match result with
  | Return weather_data => Ok200 weather_data
  | Raise (WeatherServiceException e) =>
      let text := message_text exn_str e in
      if PyText.contains (PyStr.lower text) not_found_phrase then
        NotFound404 text
      else InternalServerError (Some text)
  | Raise (Builtin _) => InternalServerError None
  end.

(** [get].  [city_field] is the parameter [city] as the [CharField] of the
    request serializer accepted it, [None] when the parameter is missing or
    the field refused it; [ip_address] is the client address. *)
Definition get (E : Env) (exn_str : builtin_exn -> pystr)
    (weather_service : weather_service_t) (f : Faults) (now : Z)
    (city_field : option pystr) (ip_address : pystr) (w : World)
    : World * response :=
  match city_field ≫= WeatherRequestSerializer.validate_city with
  | None => (w, BadRequest)
  | Some city =>
      let '(w', result) :=
        GetWeatherUseCase.execute E weather_service f now city ip_address w in
      (w', respond exn_str result)
  end.

End WeatherView.

(** ** Further notions and sample data *)

(** Requests of any clients passing through the middleware, each at its
    instant, in order: the store afterwards and the replies. *)
Fixpoint calls (s : RateLimitMiddleware.Settings)
    (requests : list (Z * RateLimitMiddleware.Request))
    (store : gmap pystr (Z * Z))
    : gmap pystr (Z * Z) * list RateLimitMiddleware.reply :=
  match requests with
  | [] => (store, [])
  | (now, request) :: requests' =>
      let '(store', r) := RateLimitMiddleware.call s now request store in
      let '(store'', rs) := calls s requests' store' in
      (store'', r :: rs)
  end.



Module Fixture.

(** What the mock provider returns for São Paulo. *)
Definition sao_paulo_data : wdict :=
  <["city" := VStr Sample.sao_paulo]> (<["country" := VStr (py "BR")]>
  (<["temperature" := VFloat 0x4039000000000000]>
  (<["description" := VStr (py "Ensolarado")]>
  (<["humidity" := VInt 60]> (<["pressure" := VFloat 0x408FAA0000000000]>
  (<["wind_speed" := VFloat 0x4016000000000000]>
  (<["provider" := VStr (py "mock")]>
  (<["raw_data" := VDict [("mock"%string, VBool true)]]> ∅)))))))).

(** A request to the weather endpoint carrying an X-Forwarded-For header. *)
Definition forwarded (header : pystr) : RateLimitMiddleware.Request :=
  {| RateLimitMiddleware.path := Sample.weather_path;
     RateLimitMiddleware.HTTP_X_FORWARDED_FOR := Some header;
     RateLimitMiddleware.REMOTE_ADDR := Some Sample.client |}.

(** An upstream answer 200 with a complete body. *)
Definition weather_body : pyval :=
  VDict [("name"%string, VStr Sample.sao_paulo);
         ("sys"%string, VDict [("country"%string, VStr (py "BR"))]);
         ("main"%string,
          VDict [("temp"%string, VFloat 0x4039000000000000);
                 ("humidity"%string, VInt 60);
                 ("pressure"%string, VFloat 0x408FAA0000000000)]);
         ("weather"%string,
          VList [VDict [("description"%string, VStr (py "clear sky"))]])].

Definition upstream_ok : pystr -> OpenWeatherMapService.http_result :=
  fun _ => OpenWeatherMapService.Response 200 weather_body.

(** What the OpenWeatherMap provider makes of [weather_body]. *)
Definition parsed_weather : wdict :=
  <["city" := VStr Sample.sao_paulo]> (<["country" := VStr (py "BR")]>
  (<["temperature" := VFloat 0x4039000000000000]>
  (<["description" := VStr (py "Clear Sky")]>
  (<["humidity" := VInt 60]> (<["pressure" := VFloat 0x408FAA0000000000]>
  (<["wind_speed" := VInt 0]>
  (<["provider" := VStr (py "openweathermap")]>
  (<["raw_data" := weather_body]> ∅)))))))).

(** The text of a built-in exception, for the samples. *)
Definition exn_str (e : builtin_exn) : pystr := py "error".

End Fixture.

(** * Properties *)

(** ** The two paths of GetWeather *)

Lemma execute_hit (E : Env) (ws : weather_service_t) (f : Faults) (now : Z)
    (city ip : pystr) (w : World) :
  cache_hit E f now city w = true ->
  exists d,
    RedisWeatherCacheRepository.get_cached_weather E f now (strip_title city)
      (cache w) = Some d
    /\ GetWeatherUseCase.execute E ws f now city ip w
       = (w, Return (served true now d)).
Proof.
  unfold cache_hit, GetWeatherUseCase.execute. intros Hhit.
  destruct (RedisWeatherCacheRepository.get_cached_weather E f now
              (strip_title city) (cache w)) as [d|] eqn:Hget.
  - exists d. split; [reflexivity|]. rewrite Hhit. reflexivity.
  - simpl in Hhit. discriminate.
Qed.

Lemma execute_miss (E : Env) (ws : weather_service_t) (f : Faults) (now : Z)
    (city ip : pystr) (w : World) (d : wdict) :
  cache_hit E f now city w = false ->
  ws now (strip_title city) = Return d ->
  GetWeatherUseCase.execute E ws f now city ip w
  = ({| cache :=
          fst (RedisWeatherCacheRepository.cache_weather E f now
                 (strip_title city) d GetWeatherUseCase.ONE_MINUTE (cache w));
        database :=
          GetWeatherUseCase._save_to_history E f now (strip_title city) ip
            (fetched E now d) (database w);
        provider_calls := provider_calls w ++ [strip_title city] |},
     Return (served false now (fetched E now d))).
Proof.
  unfold cache_hit, GetWeatherUseCase.execute. intros Hmiss Hws.
  rewrite Hmiss, Hws.
  unfold RedisWeatherCacheRepository.cache_weather, fetched.
  destruct (cache_set_raises f); reflexivity.
Qed.

Lemma execute_miss_raise (E : Env) (ws : weather_service_t) (f : Faults)
    (now : Z) (city ip : pystr) (w : World) (e : exn) :
  cache_hit E f now city w = false ->
  ws now (strip_title city) = Raise e ->
  GetWeatherUseCase.execute E ws f now city ip w
  = ({| cache := cache w; database := database w;
        provider_calls := provider_calls w ++ [strip_title city] |},
     Raise (WeatherServiceException
              match e with
              | WeatherServiceException m => m
              | Builtin b => MsgInternal b
              end)).
Proof.
  unfold cache_hit, GetWeatherUseCase.execute. intros Hmiss Hws.
  rewrite Hmiss, Hws. destruct e; reflexivity.
Qed.

Lemma get_raises_is_miss (E : Env) (f : Faults) (now : Z) (city : pystr)
    (w : World) :
  cache_get_raises f = true -> cache_hit E f now city w = false.
Proof.
  unfold cache_hit, RedisWeatherCacheRepository.get_cached_weather.
  intros ->. reflexivity.
Qed.

Lemma served_cached (b : bool) (now : Z) (d : wdict) :
  served b now d !! "cached" = Some (VBool b).
Proof. unfold served. by simplify_map_eq. Qed.

Lemma served_other (b : bool) (now : Z) (d : wdict) (k : string) :
  k <> "cached"%string -> k <> "timestamp"%string ->
  served b now d !! k = d !! k.
Proof. intros ? ?. unfold served. by simplify_map_eq. Qed.

(** ** Cache hits, cache faults, history faults *)

(** C7.  A call of GetWeather that is a cache hit leaves the whole world as
    it was (cache entries, history table, log of provider calls) and returns
    the cached dictionary marked [cached = True]; conversely a call after
    which the history table differs was a cache miss and asked the provider. *)
Theorem C7_hit_leaves_history_and_provider (E : Env) (ws : weather_service_t)
    (f : Faults) (now : Z) (city ip : pystr) (w : World) :
  (cache_hit E f now city w = true ->
   fst (GetWeatherUseCase.execute E ws f now city ip w) = w
   /\ exists d, snd (GetWeatherUseCase.execute E ws f now city ip w) = Return d
                /\ d !! "cached" = Some (VBool true))
  /\ (database (fst (GetWeatherUseCase.execute E ws f now city ip w))
        <> database w ->
      cache_hit E f now city w = false
      /\ provider_calls (fst (GetWeatherUseCase.execute E ws f now city ip w))
         = provider_calls w ++ [strip_title city]).
Proof.
  split.
  - intros Hhit.
    destruct (execute_hit E ws f now city ip w Hhit) as (d & _ & ->).
    split; [reflexivity|].
    exists (served true now d). split; [reflexivity | apply served_cached].
  - intros Hdb.
    destruct (cache_hit E f now city w) eqn:Hhit.
    + destruct (execute_hit E ws f now city ip w Hhit) as (d & _ & Hex).
      rewrite Hex in Hdb. simpl in Hdb. congruence.
    + split; [reflexivity|].
      destruct (ws now (strip_title city)) as [d|e] eqn:Hws.
      * rewrite (execute_miss E ws f now city ip w d Hhit Hws). reflexivity.
      * rewrite (execute_miss_raise E ws f now city ip w e Hhit Hws).
        reflexivity.
Qed.

Lemma C7_witness :
  cache_hit Sample.E0 no_faults 130 Sample.sao_paulo Sample.warm_world = true
  /\ fst (GetWeatherUseCase.execute Sample.E0 Sample.mock no_faults 130
            Sample.sao_paulo Sample.client Sample.warm_world)
     = Sample.warm_world.
Proof.
  assert (H : cache_hit Sample.E0 no_faults 130 Sample.sao_paulo
                Sample.warm_world = true) by (vm_compute; reflexivity).
  split; [exact H|].
  exact (proj1 (proj1 (C7_hit_leaves_history_and_provider Sample.E0 Sample.mock
                         no_faults 130 Sample.sao_paulo Sample.client
                         Sample.warm_world) H)).
Defined.

(** C6.  A failure of the cache store never fails GetWeather.  When the
    cache read raises, the call goes the way of a miss: the provider is asked
    and its data is returned marked [cached = False].  When the call is a miss
    and the cache write raises, the freshly fetched data is returned all the
    same and the cache entries are as before. *)
Theorem C6_cache_failure_does_not_fail_request (E : Env)
    (ws : weather_service_t) (f : Faults) (now : Z) (city ip : pystr)
    (w : World) (d : wdict) :
  ws now (strip_title city) = Return d ->
  (cache_get_raises f = true ->
   snd (GetWeatherUseCase.execute E ws f now city ip w)
     = Return (served false now (fetched E now d))
   /\ provider_calls (fst (GetWeatherUseCase.execute E ws f now city ip w))
      = provider_calls w ++ [strip_title city])
  /\ (cache_hit E f now city w = false -> cache_set_raises f = true ->
      snd (GetWeatherUseCase.execute E ws f now city ip w)
        = Return (served false now (fetched E now d))
      /\ cache (fst (GetWeatherUseCase.execute E ws f now city ip w)) = cache w).
Proof.
  intros Hws. split.
  - intros Hget.
    rewrite (execute_miss E ws f now city ip w d
               (get_raises_is_miss E f now city w Hget) Hws).
    split; reflexivity.
  - intros Hmiss Hset.
    rewrite (execute_miss E ws f now city ip w d Hmiss Hws). simpl.
    split; [reflexivity|].
    unfold RedisWeatherCacheRepository.cache_weather. rewrite Hset. reflexivity.
Qed.

Lemma C6_witness :
  Sample.mock 130 (strip_title Sample.sao_paulo)
    = MockWeatherService.get_weather Sample.sao_paulo
  /\ snd (GetWeatherUseCase.execute Sample.E0 Sample.mock Sample.cache_down 130
            Sample.sao_paulo Sample.client Sample.warm_world)
     = match MockWeatherService.get_weather Sample.sao_paulo with
       | Return d => Return (served false 130 (fetched Sample.E0 130 d))
       | Raise e => Raise e
       end.
Proof.
  split; [vm_compute; reflexivity|].
  refine (proj1 (proj1 (C6_cache_failure_does_not_fail_request Sample.E0
                          Sample.mock Sample.cache_down 130 Sample.sao_paulo
                          Sample.client Sample.warm_world _ _) _)).
  - vm_compute. reflexivity.
  - reflexivity.
Defined.

(** C8.  When the provider fetch of GetWeather succeeds, a failure of the
    history store, in the append or in the trim, does not reach the caller:
    whatever the faults, the call returns the fetched data marked
    [cached = False].  A failed append leaves the table untouched; a failed
    trim leaves the table with the new row appended. *)
Theorem C8_history_failure_does_not_surface (E : Env) (ws : weather_service_t)
    (f : Faults) (now : Z) (city ip : pystr) (w : World) (d : wdict) :
  cache_hit E f now city w = false ->
  ws now (strip_title city) = Return d ->
  snd (GetWeatherUseCase.execute E ws f now city ip w)
    = Return (served false now (fetched E now d))
  /\ (db_create_raises f = true ->
      database (fst (GetWeatherUseCase.execute E ws f now city ip w))
        = database w)
  /\ (db_create_raises f = false -> db_delete_raises f = true ->
      rows (database (fst (GetWeatherUseCase.execute E ws f now city ip w)))
        = rows (database w)
          ++ [DjangoWeatherQueryRepository.new_query (next_id (database w)) now
                (strip_title city) ip (fetched E now d)]).
Proof.
  intros Hmiss Hws.
  rewrite (execute_miss E ws f now city ip w d Hmiss Hws). simpl.
  unfold GetWeatherUseCase._save_to_history,
    DjangoWeatherQueryRepository.save_query,
    DjangoWeatherQueryRepository.cleanup_old_queries.
  split; [reflexivity|]. split.
  - intros ->. reflexivity.
  - intros -> ->. reflexivity.
Qed.

Lemma C8_witness :
  cache_hit Sample.E0 Sample.database_down 100 Sample.sao_paulo
    Sample.empty_world = false
  /\ Sample.mock 100 (strip_title Sample.sao_paulo)
     = MockWeatherService.get_weather Sample.sao_paulo
  /\ database (fst (GetWeatherUseCase.execute Sample.E0 Sample.mock
                      Sample.database_down 100 Sample.sao_paulo Sample.client
                      Sample.empty_world))
     = database Sample.empty_world.
Proof.
  assert (Hmiss : cache_hit Sample.E0 Sample.database_down 100
                    Sample.sao_paulo Sample.empty_world = false)
    by (vm_compute; reflexivity).
  split; [exact Hmiss|]. split; [vm_compute; reflexivity|].
  refine (proj1 (proj2 (C8_history_failure_does_not_surface Sample.E0
                          Sample.mock Sample.database_down 100
                          Sample.sao_paulo Sample.client Sample.empty_world _
                          Hmiss _)) _).
  - vm_compute. reflexivity.
  - reflexivity.
Defined.

(** ** Scope of the rate limit *)

Lemma call_other_path (s : RateLimitMiddleware.Settings) (now : Z)
    (request : RateLimitMiddleware.Request) (store : gmap pystr (Z * Z)) :
  RateLimitMiddleware.path request <> py "/api/v1/weather/" ->
  RateLimitMiddleware.startswith (RateLimitMiddleware.path request)
    (py "/api/v1/weather/?") = false ->
  RateLimitMiddleware.call s now request store
  = (store, RateLimitMiddleware.GetResponse).
Proof.
  intros Hne Hpre. unfold RateLimitMiddleware.call.
  rewrite Hpre, (bool_decide_eq_false_2 _ Hne). simpl.
  repeat match goal with
         | |- context [if ?b then _ else _] => destruct b
         end; reflexivity.
Qed.

(** C10.  The rate limit applies to the weather-query path only: a request
    to the history endpoint, the cache-invalidation endpoint, the health
    endpoint or the metrics endpoint is handed to the wrapped handler, never
    answered 429, and the store of counters is left as it was. *)
Theorem C10_rate_limit_only_on_weather_path (s : RateLimitMiddleware.Settings)
    (now : Z) (request : RateLimitMiddleware.Request)
    (store : gmap pystr (Z * Z)) :
  RateLimitMiddleware.path request
    ∈ [py "/api/v1/weather/history/"; py "/api/v1/weather/cache/";
       py "/health/"; py "/metrics"] ->
  RateLimitMiddleware.call s now request store
  = (store, RateLimitMiddleware.GetResponse).
Proof.
  intros Hpath. apply call_other_path.
  - intros Heq. rewrite Heq in Hpath.
    apply (bool_decide_pack _) in Hpath. vm_compute in Hpath. exact Hpath.
  - repeat (apply elem_of_cons in Hpath as [-> | Hpath];
            [vm_compute; reflexivity|]).
    by apply elem_of_nil in Hpath.
Qed.

Lemma C10_witness :
  RateLimitMiddleware.path (Sample.request_to (py "/api/v1/weather/history/"))
    ∈ [py "/api/v1/weather/history/"; py "/api/v1/weather/cache/";
       py "/health/"; py "/metrics"]
  /\ RateLimitMiddleware.call Sample.settings 0
       (Sample.request_to (py "/api/v1/weather/history/")) ∅
     = (∅, RateLimitMiddleware.GetResponse).
Proof.
  assert (H : RateLimitMiddleware.path
                (Sample.request_to (py "/api/v1/weather/history/"))
              ∈ [py "/api/v1/weather/history/"; py "/api/v1/weather/cache/";
                 py "/health/"; py "/metrics"]) by (left).
  split; [exact H|].
  exact (C10_rate_limit_only_on_weather_path Sample.settings 0
           (Sample.request_to (py "/api/v1/weather/history/")) ∅ H).
Defined.

(** ** Ordering of the history rows *)

Lemma insert_desc_perm (E : Env) (q : WeatherQuery.t) (l : list WeatherQuery.t) :
  WeatherQuery.insert_desc E q l ≡ₚ q :: l.
Proof.
  induction l as [|r l IH]; simpl; [reflexivity|].
  destruct (WeatherQuery.precedes E q r); [reflexivity|].
  rewrite IH. apply Permutation_swap.
Qed.

Lemma order_by_perm (E : Env) (l : list WeatherQuery.t) :
  WeatherQuery.order_by_created_desc E l ≡ₚ l.
Proof.
  induction l as [|q l IH]; simpl; [reflexivity|].
  rewrite insert_desc_perm. by rewrite IH.
Qed.

Lemma precedes_false (E : Env) (q r : WeatherQuery.t) :
  WeatherQuery.precedes E q r = false -> newer_or_equal r q.
Proof.
  unfold WeatherQuery.precedes, newer_or_equal. intros H.
  apply orb_false_iff in H as [H _].
  apply bool_decide_eq_false in H. lia.
Qed.

Lemma precedes_true (E : Env) (q r : WeatherQuery.t) :
  WeatherQuery.precedes E q r = true -> newer_or_equal q r.
Proof.
  unfold WeatherQuery.precedes, newer_or_equal. intros H.
  apply orb_true_iff in H as [H | H].
  - apply bool_decide_eq_true in H. lia.
  - apply andb_true_iff in H as [H _]. apply bool_decide_eq_true in H. lia.
Qed.

Lemma insert_desc_sorted (E : Env) (q : WeatherQuery.t) (l : list WeatherQuery.t) :
  StronglySorted newer_or_equal l ->
  StronglySorted newer_or_equal (WeatherQuery.insert_desc E q l).
Proof.
  induction 1 as [|r l Hl IH Hr]; simpl.
  - repeat constructor.
  - destruct (WeatherQuery.precedes E q r) eqn:Hp.
    + apply precedes_true in Hp. constructor; [by constructor|].
      constructor; [exact Hp|].
      eapply Forall_impl; [exact Hr|]. unfold newer_or_equal in *. intros; lia.
    + apply precedes_false in Hp. constructor; [exact IH|].
      rewrite insert_desc_perm. by constructor.
Qed.

Lemma order_by_sorted (E : Env) (l : list WeatherQuery.t) :
  StronglySorted newer_or_equal (WeatherQuery.order_by_created_desc E l).
Proof.
  induction l as [|q l IH]; simpl; [constructor|].
  by apply insert_desc_sorted.
Qed.

Lemma StronglySorted_take {A : Type} (R : A -> A -> Prop) (n : nat) (l : list A) :
  StronglySorted R l -> StronglySorted R (take n l).
Proof.
  intros H. rewrite <- (take_drop n l) in H.
  by apply StronglySorted_app_1_l in H.
Qed.

Lemma filter_key_spec (c ip : pystr) (rows : list WeatherQuery.t)
    (q : WeatherQuery.t) :
  q ∈ WeatherQuery.filter_key c ip rows
  <-> q ∈ rows /\ WeatherQuery.city q = c /\ WeatherQuery.ip_address q = ip.
Proof. unfold WeatherQuery.filter_key. rewrite list_elem_of_filter. tauto. Qed.

(** ** The limit of GetHistory *)

Lemma guard_limit_range (parsed : option Z) :
  (1 <= WeatherHistoryView.guard_limit parsed <= 50)%Z.
Proof.
  unfold WeatherHistoryView.guard_limit. destruct parsed as [n|]; [|lia].
  case_bool_decide; lia.
Qed.

Lemma get_history_props (E : Env) (f : Faults) (c ip : pystr) (lim : Z)
    (db : Database) :
  (0 <= lim)%Z ->
  let qs := DjangoWeatherQueryRepository.get_history E f c ip lim db in
  (Z.of_nat (length qs) <= lim)%Z
  /\ StronglySorted newer_or_equal qs
  /\ (forall q, q ∈ qs ->
        q ∈ rows db /\ WeatherQuery.city q = c /\ WeatherQuery.ip_address q = ip).
Proof.
  intros Hlim. unfold DjangoWeatherQueryRepository.get_history.
  destruct (db_select_raises f).
  { simpl. split; [lia|]. split; [constructor|]. intros q Hq. by inv Hq. }
  rewrite bool_decide_eq_false_2 by lia. simpl. split; [|split].
  - rewrite length_take. lia.
  - apply StronglySorted_take, order_by_sorted.
  - intros q Hq. apply elem_of_take in Hq as (i & Hq & _).
    apply list_elem_of_lookup_2 in Hq. rewrite order_by_perm in Hq.
    by apply filter_key_spec in Hq.
Qed.

Lemma get_history_content (E : Env) (f : Faults) (c ip : pystr) (lim : Z)
    (db : Database) :
  (0 <= lim)%Z ->
  db_select_raises f = false ->
  let key_rows := WeatherQuery.filter_key c ip (rows db) in
  let qs := DjangoWeatherQueryRepository.get_history E f c ip lim db in
  qs = take (Z.to_nat lim) (WeatherQuery.order_by_created_desc E key_rows)
  /\ Z.of_nat (length qs) = Z.min lim (Z.of_nat (length key_rows))
  /\ (exists rest,
        qs ++ rest ≡ₚ key_rows
        /\ StronglySorted newer_or_equal (qs ++ rest))
  /\ ((Z.of_nat (length key_rows) <= lim)%Z -> qs ≡ₚ key_rows).
Proof.
  intros Hlim Hsel key_rows qs. subst qs.
  unfold DjangoWeatherQueryRepository.get_history. rewrite Hsel.
  rewrite bool_decide_eq_false_2 by lia. fold key_rows.
  split; [reflexivity|]. split; [|split].
  - rewrite length_take, (Permutation_length (order_by_perm E key_rows)). lia.
  - exists (drop (Z.to_nat lim) (WeatherQuery.order_by_created_desc E key_rows)).
    rewrite take_drop. split; [apply order_by_perm|apply order_by_sorted].
  - intros Hfew. rewrite take_ge; [apply order_by_perm|].
    rewrite (Permutation_length (order_by_perm E key_rows)). lia.
Qed.

Lemma parse_limit_of_literal (I : Interpreter) (n : Z) :
  (1 <= n <= 50)%Z ->
  WeatherHistoryView.parse_limit I (Some (PyText.str_int n)) = n.
Proof.
  intros Hn. rewrite <- (Z2Nat.id n) by lia.
  assert (Hk : Z.to_nat n <= 50) by lia.
  destruct (Z.to_nat n) as [|k] eqn:Hnat; [lia|]. clear Hnat Hn.
  do 50 (destruct k as [|k]; [vm_compute; reflexivity|]).
  lia.
Qed.

(** C4, as amended.  The limit in force always lies in 1..50, for every
    value of the parameter and every interpreter: a value that [int] reads as
    a number inside 1..50 is used as it is (so the decimal text of every
    number from 1 to 50 selects that number), and a missing, unreadable or
    out-of-range value is replaced by the default 10 (an out-of-range value
    is not moved to the nearest bound).  For a non-empty city the endpoint
    then answers with the data of the use case: the normalized city, the
    limit in force, and the records of the key.  With a working database
    read the records are exactly the first [limit] rows of the key in the
    order of the query, newest first: they are a prefix of a newest-first
    arrangement of all the rows of the key, the total is the smaller of the
    limit and the number of rows of the key, and all rows of the key are
    returned when there are no more than the limit.  With a failing read the
    records are empty.  The total is always the number of records
    returned. *)
Theorem C4_history_limit_and_result (E : Env) (I : Interpreter) (f : Faults)
    (city_param : pystr) (limit_param : option pystr) (ip : pystr) (w : World) :
  let l := WeatherHistoryView.parse_limit I limit_param in
  (1 <= l <= 50)%Z
  /\ (forall n, parsed_limit I limit_param = Some n -> (1 <= n <= 50)%Z -> l = n)
  /\ (forall n, parsed_limit I limit_param = Some n -> (n < 1 \/ 50 < n)%Z ->
        l = 10%Z)
  /\ (parsed_limit I limit_param = None -> l = 10%Z)
  /\ (forall n, (1 <= n <= 50)%Z ->
        WeatherHistoryView.parse_limit I (Some (PyText.str_int n)) = n)
  /\ (city_param <> [] ->
      exists data,
        WeatherHistoryView.get E I f (Some city_param) limit_param ip w
          = WeatherHistoryView.Ok200 data
        /\ GetWeatherHistoryUseCase.limit data = l
        /\ GetWeatherHistoryUseCase.city data
           = strip_title (strip_title city_param)
        /\ GetWeatherHistoryUseCase.total data
           = Z.of_nat (length (GetWeatherHistoryUseCase.queries data))
        /\ (GetWeatherHistoryUseCase.total data <= l)%Z
        /\ StronglySorted newer_or_equal (GetWeatherHistoryUseCase.queries data)
        /\ (forall q, q ∈ GetWeatherHistoryUseCase.queries data ->
              q ∈ rows (database w)
              /\ WeatherQuery.city q = strip_title (strip_title city_param)
              /\ WeatherQuery.ip_address q = ip)
        /\ (db_select_raises f = false ->
            let key_rows :=
              WeatherQuery.filter_key (strip_title (strip_title city_param)) ip
                (rows (database w)) in
            GetWeatherHistoryUseCase.queries data
            = take (Z.to_nat l) (WeatherQuery.order_by_created_desc E key_rows)
            /\ GetWeatherHistoryUseCase.total data
               = Z.min l (Z.of_nat (length key_rows))
            /\ (exists rest,
                  GetWeatherHistoryUseCase.queries data ++ rest ≡ₚ key_rows
                  /\ StronglySorted newer_or_equal
                       (GetWeatherHistoryUseCase.queries data ++ rest))
            /\ ((Z.of_nat (length key_rows) <= l)%Z ->
                GetWeatherHistoryUseCase.queries data ≡ₚ key_rows))
        /\ (db_select_raises f = true ->
            GetWeatherHistoryUseCase.queries data = [])).
Proof.
  intros l.
  assert (Hrange : (1 <= l <= 50)%Z) by apply guard_limit_range.
  assert (Hl0 : (0 <= l)%Z) by lia.
  split; [exact Hrange|].
  unfold l, WeatherHistoryView.parse_limit, parsed_limit in *.
  split; [|split; [|split; [|split]]].
  - intros n -> Hn. unfold WeatherHistoryView.guard_limit.
    rewrite bool_decide_eq_false_2 by lia. reflexivity.
  - intros n -> Hn. unfold WeatherHistoryView.guard_limit.
    rewrite bool_decide_eq_true_2 by lia. reflexivity.
  - intros ->. reflexivity.
  - apply parse_limit_of_literal.
  - intros Hcity. destruct city_param as [|ch rest]; [done|].
    eexists. split; [reflexivity|]. simpl.
    split; [reflexivity|]. split; [reflexivity|]. split; [reflexivity|].
    pose proof (get_history_props E f (strip_title (strip_title (ch :: rest)))
                  ip _ (database w) Hl0) as (Hlen & Hsorted & Hin).
    split; [exact Hlen|]. split; [exact Hsorted|]. split; [exact Hin|].
    split.
    + intros Hsel.
      exact (get_history_content E f (strip_title (strip_title (ch :: rest)))
               ip _ (database w) Hl0 Hsel).
    + intros Hsel. unfold DjangoWeatherQueryRepository.get_history.
      by rewrite Hsel.
Qed.

Lemma C4_witness :
  Sample.sao_paulo_lower <> []
  /\ parsed_limit Sample.cpython (Some (py "25")) = Some 25%Z
  /\ WeatherHistoryView.parse_limit Sample.cpython (Some (py "25")) = 25%Z
  /\ exists data,
       WeatherHistoryView.get Sample.E0 Sample.cpython no_faults
         (Some Sample.sao_paulo_lower) (Some (py "25")) Sample.client
         Sample.warm_world
         = WeatherHistoryView.Ok200 data
       /\ GetWeatherHistoryUseCase.limit data = 25%Z
       /\ GetWeatherHistoryUseCase.total data = 1%Z
       /\ GetWeatherHistoryUseCase.queries data
          ≡ₚ WeatherQuery.filter_key Sample.sao_paulo Sample.client
               (rows (database Sample.warm_world)).
Proof.
  assert (H : Sample.sao_paulo_lower <> []) by (vm_compute; discriminate).
  assert (Hp : parsed_limit Sample.cpython (Some (py "25")) = Some 25%Z)
    by (vm_compute; reflexivity).
  split; [exact H|]. split; [exact Hp|].
  destruct (C4_history_limit_and_result Sample.E0 Sample.cpython no_faults
              Sample.sao_paulo_lower (Some (py "25")) Sample.client
              Sample.warm_world) as (_ & Hin & _ & _ & _ & Hdata).
  pose proof (Hin 25%Z Hp ltac:(lia)) as Hl.
  split; [exact Hl|].
  destruct (Hdata H) as (data & Hget & Hlimit & _ & _ & _ & _ & _ & Hread & _).
  destruct (Hread eq_refl) as (_ & Htotal & _ & Hall).
  exists data. split; [exact Hget|].
  split; [by rewrite Hlimit|].
  rewrite Hl in Htotal, Hall.
  split; [rewrite Htotal; vm_compute; reflexivity|].
  apply Hall. vm_compute. discriminate.
Defined.

(** The claim as worded fails: the requested limit 100 is not moved to the
    bound 50 but replaced by the default 10. *)
Lemma C4_counterexample :
  WeatherHistoryView.parse_limit Sample.cpython (Some (py "100"))
  <> spec_clamped_limit (parsed_limit Sample.cpython (Some (py "100"))).
Proof. vm_compute. discriminate. Qed.

(** ** Provider errors *)

Lemma builtin_only_bind {A B : Type} (m : outcome A) (k : A -> outcome B) :
  builtin_only m -> (forall a, builtin_only (k a)) -> builtin_only (m ≫= k).
Proof. destruct m as [a|[msg|e]]; simpl; auto. Qed.

Lemma getitem_builtin (v : pyval) (key : string) :
  builtin_only (Py.getitem v key).
Proof.
  destruct v; simpl; try exact I. destruct (Py.assoc key kv); exact I.
Qed.

Lemma getitem0_builtin (v : pyval) : builtin_only (Py.getitem0 v).
Proof. destruct v as [| | | |[|? ?]|[|? ?]| |]; exact I. Qed.

Lemma get_builtin (v : pyval) (key : string) (dflt : pyval) :
  builtin_only (Py.get v key dflt).
Proof.
  destruct v; simpl; try exact I. destruct (Py.assoc key kv); exact I.
Qed.

Lemma round1_builtin (E : Env) (v : pyval) : builtin_only (Py.round1 E v).
Proof. destruct v; exact I. Qed.

Lemma title_builtin (v : pyval) : builtin_only (Py.title v).
Proof. destruct v; exact I. Qed.

Lemma weather_fields_builtin (E : Env) (data : pyval) :
  builtin_only (OpenWeatherMapService.weather_fields E data).
Proof.
  unfold OpenWeatherMapService.weather_fields.
  repeat (apply builtin_only_bind;
          [first [apply getitem_builtin | apply getitem0_builtin
                 | apply get_builtin | apply round1_builtin
                 | apply title_builtin]
          | intros ?]).
  exact I.
Qed.

(** What [get_weather] can give: data, one of the six provider kinds, or a
    built-in exception other than [KeyError] that escaped the parser. *)
Lemma get_weather_outcomes (E : Env) (api_key : pystr)
    (requests_get : pystr -> OpenWeatherMapService.http_result) (c : pystr) :
  match OpenWeatherMapService.get_weather E api_key requests_get c with
  | Return _ => True
  | Raise (WeatherServiceException m) => exists k, kind_of m = Some k
  | Raise (Builtin e) => forall key, e <> KeyError key
  end.
Proof.
  unfold OpenWeatherMapService.get_weather.
  case_bool_decide; [by eexists|].
  destruct (requests_get c) as [status data|detail]; [|by eexists].
  case_bool_decide;
    [|case_bool_decide; [by eexists|case_bool_decide; by eexists]].
  unfold OpenWeatherMapService._parse_weather_data.
  pose proof (weather_fields_builtin E data) as Hb.
  destruct (OpenWeatherMapService.weather_fields E data) as [d|[m|e]].
  - exact I.
  - destruct Hb.
  - destruct e; try (intros ? ?; discriminate). by eexists.
Qed.

(** The error branches of [get_weather], one by one. *)
Lemma get_weather_error_mapping (E : Env) (api_key : pystr)
    (requests_get : pystr -> OpenWeatherMapService.http_result) (c : pystr) :
  (api_key = [] ->
   OpenWeatherMapService.get_weather E api_key requests_get c
   = Raise (WeatherServiceException MsgNotConfigured))
  /\ (api_key <> [] ->
      (forall detail,
         requests_get c = OpenWeatherMapService.RequestException detail ->
         OpenWeatherMapService.get_weather E api_key requests_get c
         = Raise (WeatherServiceException (MsgConnection detail)))
      /\ (forall data,
            requests_get c = OpenWeatherMapService.Response 404 data ->
            OpenWeatherMapService.get_weather E api_key requests_get c
            = Raise (WeatherServiceException (MsgCityNotFound c)))
      /\ (forall data,
            requests_get c = OpenWeatherMapService.Response 401 data ->
            OpenWeatherMapService.get_weather E api_key requests_get c
            = Raise (WeatherServiceException MsgInvalidKey))
      /\ (forall status data,
            requests_get c = OpenWeatherMapService.Response status data ->
            status <> 200%Z -> status <> 404%Z -> status <> 401%Z ->
            OpenWeatherMapService.get_weather E api_key requests_get c
            = Raise (WeatherServiceException (MsgApiError status)))
      /\ (forall data key,
            requests_get c = OpenWeatherMapService.Response 200 data ->
            OpenWeatherMapService.weather_fields E data
              = Raise (Builtin (KeyError key)) ->
            OpenWeatherMapService.get_weather E api_key requests_get c
            = Raise (WeatherServiceException (MsgParse (KeyError key))))).
Proof.
  unfold OpenWeatherMapService.get_weather. split.
  - intros ->. reflexivity.
  - intros Hkey. rewrite (bool_decide_eq_false_2 _ Hkey).
    repeat split.
    + intros detail ->. reflexivity.
    + intros data ->. reflexivity.
    + intros data ->. reflexivity.
    + intros status data -> H200 H404 H401.
      rewrite !bool_decide_eq_false_2 by assumption. reflexivity.
    + intros data key -> Hfields. simpl.
      unfold OpenWeatherMapService._parse_weather_data. rewrite Hfields.
      reflexivity.
Qed.

(** On a miss GetWeather raises again, unchanged, the
    [WeatherServiceException] of the provider. *)
Lemma execute_propagates_provider_error (E : Env) (ws : weather_service_t)
    (f : Faults) (now : Z) (city ip : pystr) (w : World) (m : message) :
  cache_hit E f now city w = false ->
  ws now (strip_title city) = Raise (WeatherServiceException m) ->
  snd (GetWeatherUseCase.execute E ws f now city ip w)
  = Raise (WeatherServiceException m).
Proof.
  intros Hmiss Hws.
  by rewrite (execute_miss_raise E ws f now city ip w _ Hmiss Hws).
Qed.

(** C5, at the input where the code departs from it.  Upstream answers 200
    with an empty ["weather"] list: [data["weather"][0]] raises [IndexError],
    which [_parse_weather_data] does not catch (it catches [KeyError] only),
    so the fetch fails with an exception that is none of the six kinds, and
    GetWeather hands the caller its own wrapper "Erro interno do serviço"
    in place of a parse error. *)
Theorem C5_empty_weather_list_escapes_the_parser (E : Env) (now : Z)
    (ip : pystr) :
  let provider : weather_service_t :=
    fun _ c =>
      OpenWeatherMapService.get_weather E (py "test-key")
        Sample.upstream_empty_weather c in
  provider now (strip_title Sample.sao_paulo) = Raise (Builtin IndexError)
  /\ snd (GetWeatherUseCase.execute E provider no_faults now Sample.sao_paulo
            ip Sample.empty_world)
     = Raise (WeatherServiceException (MsgInternal IndexError))
  /\ kind_of (MsgInternal IndexError) = None.
Proof.
  intros provider.
  assert (Hp : provider now (strip_title Sample.sao_paulo)
               = Raise (Builtin IndexError)) by (vm_compute; reflexivity).
  split; [exact Hp|]. split; [|reflexivity].
  rewrite (execute_miss_raise E provider no_faults now Sample.sao_paulo ip
             Sample.empty_world (Builtin IndexError)); [reflexivity| |exact Hp].
  vm_compute. reflexivity.
Qed.

(** ** The cache-aside invariant *)

(** Induction on values that reaches inside lists and dictionaries. *)
Lemma pyval_nested_ind (P : pyval -> Prop) :
  P VNone ->
  (forall b, P (VBool b)) ->
  (forall n, P (VInt n)) ->
  (forall bits, P (VFloat bits)) ->
  (forall s, P (VStr s)) ->
  (forall items, Forall P items -> P (VList items)) ->
  (forall kv, Forall (fun p => P (snd p)) kv -> P (VDict kv)) ->
  (forall t, P (VDatetime t)) ->
  forall v, P v.
Proof.
  intros HNone HBool HInt HFloat HStr HList HDict HTime.
  fix IH 1. intros [ |b|n|bits|s|items|kv|t].
  - exact HNone.
  - apply HBool.
  - apply HInt.
  - apply HFloat.
  - apply HStr.
  - apply HList. induction items as [|x items IHitems]; constructor.
    + apply IH.
    + exact IHitems.
  - apply HDict. induction kv as [|[k x] kv IHkv]; constructor.
    + apply IH.
    + exact IHkv.
  - apply HTime.
Qed.

Lemma json_native_roundtrip (E : Env) (v : pyval) :
  json_native v = true -> json_roundtrip E v = v.
Proof.
  induction v as [ |b|n|bits|s|items IH|kv IH|t] using pyval_nested_ind;
    simpl; intros Hn; try reflexivity; try discriminate.
  - f_equal. induction IH as [|x items Hx _ IHitems]; [reflexivity|].
    simpl in Hn. apply andb_true_iff in Hn as [Hn1 Hn2].
    simpl. by rewrite Hx, IHitems.
  - f_equal. induction IH as [|[k x] kv Hx _ IHkv]; [reflexivity|].
    simpl in Hn, Hx. apply andb_true_iff in Hn as [Hn1 Hn2].
    simpl. by rewrite Hx, IHkv.
Qed.

Lemma cache_get_set {A : Type} (m : gmap pystr (A * Z)) (t t' : Z)
    (key : pystr) (v : A) (timeout : Z) :
  (t' < t + timeout)%Z ->
  Cache.get (Cache.set m t key v timeout) t' key = Some v.
Proof.
  intros Hlive. unfold Cache.get, Cache.set.
  rewrite lookup_insert_eq. by rewrite bool_decide_eq_true_2.
Qed.


(** C1.  GetWeather called twice for a city, the first call being a miss
    served by the provider with a working cache write, the second within the
    60 seconds of the entry with a working cache read and nothing in between:
    the first result has [cached = False], the second [cached = True], the
    provider is not asked again, and apart from ["cached"] and ["timestamp"]
    the second dictionary is the JSON round trip of the first, so every field
    holding a JSON-native value (city, country, temperature, description,
    humidity, pressure, wind_speed, provider) is identical. *)
Theorem C1_cache_aside_two_calls (E : Env) (ws : weather_service_t)
    (f1 f2 : Faults) (t1 t2 : Z) (city ip1 ip2 : pystr) (w : World)
    (d : wdict) :
  cache_hit E f1 t1 city w = false ->
  ws t1 (strip_title city) = Return d ->
  cache_set_raises f1 = false ->
  cache_get_raises f2 = false ->
  (t1 <= t2 < t1 + GetWeatherUseCase.ONE_MINUTE)%Z ->
  let r1 := GetWeatherUseCase.execute E ws f1 t1 city ip1 w in
  let r2 := GetWeatherUseCase.execute E ws f2 t2 city ip2 (fst r1) in
  exists a b,
    snd r1 = Return a /\ snd r2 = Return b
    /\ a !! "cached" = Some (VBool false)
    /\ b !! "cached" = Some (VBool true)
    /\ (forall k, k <> "cached"%string -> k <> "timestamp"%string ->
          b !! k = json_roundtrip E <$> a !! k)
    /\ (forall k v, k <> "cached"%string -> k <> "timestamp"%string ->
          a !! k = Some v -> json_native v = true -> b !! k = Some v)
    /\ provider_calls (fst r2) = provider_calls (fst r1).
Proof.
  intros Hmiss Hws Hset Hget Ht r1 r2. unfold r2, r1. clear r1 r2.
  rewrite (execute_miss E ws f1 t1 city ip1 w d Hmiss Hws). simpl.
  set (w1 := {| cache := _; database := _; provider_calls := _ |}).
  assert (Hcached :
    RedisWeatherCacheRepository.get_cached_weather E f2 t2 (strip_title city)
      (cache w1) = Some (json_roundtrip E <$> fetched E t1 d)).
  { unfold RedisWeatherCacheRepository.get_cached_weather, w1. simpl.
    unfold RedisWeatherCacheRepository.cache_weather.
    rewrite Hget, Hset. simpl. rewrite cache_get_set by lia. reflexivity. }
  assert (Hhit : cache_hit E f2 t2 city w1 = true).
  { unfold cache_hit. rewrite Hcached. simpl. apply bool_decide_eq_true_2.
    intros Hempty.
    assert (Hk : (json_roundtrip E <$> fetched E t1 d) !! "cached_at"
                 = Some (VStr (isoformat E t1))).
    { unfold fetched. rewrite lookup_fmap, lookup_insert_eq. reflexivity. }
    rewrite Hempty, lookup_empty in Hk. discriminate. }
  destruct (execute_hit E ws f2 t2 city ip2 w1 Hhit) as (d2 & Hd2 & ->).
  rewrite Hcached in Hd2. injection Hd2 as <-. simpl.
  exists (served false t1 (fetched E t1 d)),
         (served true t2 (json_roundtrip E <$> fetched E t1 d)).
  split; [reflexivity|]. split; [reflexivity|].
  split; [apply served_cached|]. split; [apply served_cached|].
  assert (Hfields : forall k, k <> "cached"%string -> k <> "timestamp"%string ->
            served true t2 (json_roundtrip E <$> fetched E t1 d) !! k
            = json_roundtrip E <$> served false t1 (fetched E t1 d) !! k).
  { intros k Hk1 Hk2. rewrite !served_other by assumption.
    by rewrite lookup_fmap. }
  split; [exact Hfields|]. split; [|reflexivity].
  intros k v Hk1 Hk2 Ha Hnative.
  rewrite Hfields, Ha by assumption. simpl.
  by rewrite json_native_roundtrip.
Qed.

Lemma C1_witness :
  cache_hit Sample.E0 no_faults 100 Sample.sao_paulo_lower Sample.empty_world
    = false
  /\ (100 <= 159 < 100 + GetWeatherUseCase.ONE_MINUTE)%Z
  /\ exists a b,
       snd (GetWeatherUseCase.execute Sample.E0 Sample.mock no_faults 100
              Sample.sao_paulo_lower Sample.client Sample.empty_world)
         = Return a
       /\ snd (GetWeatherUseCase.execute Sample.E0 Sample.mock no_faults 159
                 Sample.sao_paulo_lower Sample.client
                 (fst (GetWeatherUseCase.execute Sample.E0 Sample.mock
                         no_faults 100 Sample.sao_paulo_lower Sample.client
                         Sample.empty_world)))
          = Return b
       /\ a !! "cached" = Some (VBool false)
       /\ b !! "cached" = Some (VBool true).
Proof.
  assert (Hmiss : cache_hit Sample.E0 no_faults 100 Sample.sao_paulo_lower
                    Sample.empty_world = false) by (vm_compute; reflexivity).
  assert (Ht : (100 <= 159 < 100 + GetWeatherUseCase.ONE_MINUTE)%Z)
    by (unfold GetWeatherUseCase.ONE_MINUTE; lia).
  split; [exact Hmiss|]. split; [exact Ht|].
  destruct (C1_cache_aside_two_calls Sample.E0 Sample.mock no_faults no_faults
              100 159 Sample.sao_paulo_lower Sample.client Sample.client
              Sample.empty_world _ Hmiss eq_refl eq_refl eq_refl Ht)
    as (a & b & Ha & Hb & Hca & Hcb & _).
  exists a, b. auto.
Defined.

(** ** The rate limit counter *)

Lemma call_when_applies (s : RateLimitMiddleware.Settings) (now : Z)
    (request : RateLimitMiddleware.Request) (store : gmap pystr (Z * Z)) :
  rate_limit_applies s request = true ->
  RateLimitMiddleware.call s now request store
  = if RateLimitMiddleware.is_rate_limited s store now
         (RateLimitMiddleware.get_client_ip request)
    then (store,
          RateLimitMiddleware.TooManyRequests
            (RateLimitMiddleware.RATE_LIMIT_REQUESTS s)
            (RateLimitMiddleware.RATE_LIMIT_WINDOW s)
            (RateLimitMiddleware.RATE_LIMIT_WINDOW s))
    else (RateLimitMiddleware.record_request s store now
            (RateLimitMiddleware.get_client_ip request),
          RateLimitMiddleware.GetResponse).
Proof.
  unfold rate_limit_applies, RateLimitMiddleware.call. intros H.
  apply andb_true_iff in H as [H Hpath].
  apply andb_true_iff in H as [Hskip Htest].
  apply negb_true_iff in Hskip. apply negb_true_iff in Htest.
  rewrite Hskip, Htest, Hpath. reflexivity.
Qed.

Lemma call_when_not_applies (s : RateLimitMiddleware.Settings) (now : Z)
    (request : RateLimitMiddleware.Request) (store : gmap pystr (Z * Z)) :
  rate_limit_applies s request = false ->
  RateLimitMiddleware.call s now request store
  = (store, RateLimitMiddleware.GetResponse).
Proof.
  unfold rate_limit_applies, RateLimitMiddleware.call.
  destruct (bool_decide (RateLimitMiddleware.path request ∈ _));
    [by intros|].
  destruct (RateLimitMiddleware.TESTING s && negb _); [by intros|].
  simpl. intros ->. reflexivity.
Qed.

Lemma record_request_counter (s : RateLimitMiddleware.Settings)
    (store : gmap pystr (Z * Z)) (now t : Z) (ip : option pystr) :
  RateLimitMiddleware.current_requests
    (RateLimitMiddleware.record_request s store now ip) t ip
  = if bool_decide (t < now + RateLimitMiddleware.RATE_LIMIT_WINDOW s)%Z
    then (RateLimitMiddleware.current_requests store now ip + 1)%Z
    else 0%Z.
Proof.
  unfold RateLimitMiddleware.record_request.
  unfold RateLimitMiddleware.current_requests at 1.
  unfold Cache.get, Cache.set. rewrite lookup_insert_eq.
  by case_bool_decide.
Qed.

Lemma call_keeps_bound (s : RateLimitMiddleware.Settings) (now : Z)
    (request : RateLimitMiddleware.Request) (store : gmap pystr (Z * Z)) :
  (0 <= RateLimitMiddleware.RATE_LIMIT_REQUESTS s)%Z ->
  (forall t,
     (RateLimitMiddleware.current_requests store t
        (RateLimitMiddleware.get_client_ip request)
      <= RateLimitMiddleware.RATE_LIMIT_REQUESTS s)%Z) ->
  forall t,
    (RateLimitMiddleware.current_requests
       (fst (RateLimitMiddleware.call s now request store)) t
       (RateLimitMiddleware.get_client_ip request)
     <= RateLimitMiddleware.RATE_LIMIT_REQUESTS s)%Z.
Proof.
  intros Hlimit Hbound t.
  destruct (rate_limit_applies s request) eqn:Happ.
  - rewrite (call_when_applies s now request store Happ).
    unfold RateLimitMiddleware.is_rate_limited. case_bool_decide as Hfull.
    + apply Hbound.
    + simpl. rewrite record_request_counter. case_bool_decide; lia.
  - rewrite (call_when_not_applies s now request store Happ). apply Hbound.
Qed.

Lemma attempts_keep_bound (s : RateLimitMiddleware.Settings)
    (request : RateLimitMiddleware.Request) (times : list Z)
    (store : gmap pystr (Z * Z)) :
  (0 <= RateLimitMiddleware.RATE_LIMIT_REQUESTS s)%Z ->
  (forall t,
     (RateLimitMiddleware.current_requests store t
        (RateLimitMiddleware.get_client_ip request)
      <= RateLimitMiddleware.RATE_LIMIT_REQUESTS s)%Z) ->
  forall t,
    (RateLimitMiddleware.current_requests
       (fst (RateLimitMiddleware.attempts s request times store)) t
       (RateLimitMiddleware.get_client_ip request)
     <= RateLimitMiddleware.RATE_LIMIT_REQUESTS s)%Z.
Proof.
  intros Hlimit. revert store.
  induction times as [|now times IH]; intros store Hbound t; simpl.
  - apply Hbound.
  - pose proof (call_keeps_bound s now request store Hlimit Hbound) as Hstep.
    destruct (RateLimitMiddleware.call s now request store) as [store' r].
    specialize (IH store' Hstep t).
    destruct (RateLimitMiddleware.attempts s request times store')
      as [store'' rs].
    exact IH.
Qed.

(** C2, as amended.  For a counted request of one client identity: an
    attempt is answered 429 exactly when the counter read at that instant has
    reached the limit; a rejected attempt leaves the store as it was; an
    accepted attempt stores the count plus one with a fresh expiry, so the
    counter reads zero again once [RATE_LIMIT_WINDOW] seconds have passed
    since the most recent accepted attempt (every accepted attempt restarts
    the expiry; the window is not anchored at its first request); and, the
    limit not being negative and the counter starting within it, after any
    sequence of attempts the counter never reads more than the limit. *)
Theorem C2_rate_limit_counter (s : RateLimitMiddleware.Settings)
    (request : RateLimitMiddleware.Request) (now : Z) (times : list Z)
    (store : gmap pystr (Z * Z)) :
  rate_limit_applies s request = true ->
  let ip := RateLimitMiddleware.get_client_ip request in
  let out := RateLimitMiddleware.call s now request store in
  (snd out <> RateLimitMiddleware.GetResponse
   <-> (RateLimitMiddleware.RATE_LIMIT_REQUESTS s
        <= RateLimitMiddleware.current_requests store now ip)%Z)
  /\ (snd out <> RateLimitMiddleware.GetResponse -> fst out = store)
  /\ (snd out = RateLimitMiddleware.GetResponse ->
      forall t,
        RateLimitMiddleware.current_requests (fst out) t ip
        = if bool_decide (t < now + RateLimitMiddleware.RATE_LIMIT_WINDOW s)%Z
          then (RateLimitMiddleware.current_requests store now ip + 1)%Z
          else 0%Z)
  /\ ((0 <= RateLimitMiddleware.RATE_LIMIT_REQUESTS s)%Z ->
      (forall t,
         (RateLimitMiddleware.current_requests store t ip
          <= RateLimitMiddleware.RATE_LIMIT_REQUESTS s)%Z) ->
      forall t,
        (RateLimitMiddleware.current_requests
           (fst (RateLimitMiddleware.attempts s request times store)) t ip
         <= RateLimitMiddleware.RATE_LIMIT_REQUESTS s)%Z).
Proof.
  intros Happ ip out. unfold out, ip.
  rewrite (call_when_applies s now request store Happ).
  unfold RateLimitMiddleware.is_rate_limited.
  split; [|split; [|split]].
  - case_bool_decide as Hfull; simpl.
    + split; [intros _; lia | intros _; discriminate].
    + split; [intros Hne; by destruct Hne | intros Hle Heq; lia].
  - case_bool_decide; simpl; [reflexivity | intros Hne; by destruct Hne].
  - case_bool_decide; simpl; [discriminate|].
    intros _ t. apply record_request_counter.
  - intros Hlimit Hbound. by apply attempts_keep_bound.
Qed.

Lemma empty_store_counter (t : Z) (ip : option pystr) :
  RateLimitMiddleware.current_requests ∅ t ip = 0%Z.
Proof.
  unfold RateLimitMiddleware.current_requests, Cache.get.
  by rewrite lookup_empty.
Qed.

Lemma C2_witness :
  rate_limit_applies Sample.settings (Sample.request_to Sample.weather_path)
    = true
  /\ (0 <= RateLimitMiddleware.RATE_LIMIT_REQUESTS Sample.settings)%Z
  /\ forall t,
       (RateLimitMiddleware.current_requests
          (fst (RateLimitMiddleware.attempts Sample.settings
                  (Sample.request_to Sample.weather_path)
                  [0; 1; 2; 3; 4; 5; 59; 65]%Z ∅)) t (Some Sample.client)
        <= 5)%Z.
Proof.
  assert (Happ : rate_limit_applies Sample.settings
                   (Sample.request_to Sample.weather_path) = true)
    by (vm_compute; reflexivity).
  assert (Hlimit : (0 <= RateLimitMiddleware.RATE_LIMIT_REQUESTS
                          Sample.settings)%Z) by (simpl; lia).
  split; [exact Happ|]. split; [exact Hlimit|].
  refine (proj2 (proj2 (proj2 (C2_rate_limit_counter Sample.settings
            (Sample.request_to Sample.weather_path) 0
            [0; 1; 2; 3; 4; 5; 59; 65]%Z ∅ Happ))) Hlimit _).
  intros t. rewrite empty_store_counter. simpl. lia.
Defined.

(** The claim as worded fails.  Limit 5, window 60 seconds, attempts at the
    instants 0 and 50 on an empty store: at instant 60 the 60 seconds since
    the request that started the window have passed, and the counter still
    reads 2 (it expires at 110, sixty seconds after the second attempt). *)
Lemma C2_counterexample :
  (0 + RateLimitMiddleware.RATE_LIMIT_WINDOW Sample.settings <= 60)%Z
  /\ RateLimitMiddleware.current_requests
       (fst (RateLimitMiddleware.attempts Sample.settings
               (Sample.request_to Sample.weather_path) [0; 50]%Z ∅))
       60 (Some Sample.client)
     <> 0%Z.
Proof. split; [simpl; lia|]. vm_compute. discriminate. Qed.

(** ** City normalization *)

Section TitleStrip.
Import PyStrFacts.


























End TitleStrip.




(** ** History retention *)

Lemma filter_key_filter (c ip : pystr) (P : WeatherQuery.t -> Prop)
    `{!forall q, Decision (P q)} (rows : list WeatherQuery.t) :
  WeatherQuery.filter_key c ip (filter P rows)
  = filter P (WeatherQuery.filter_key c ip rows).
Proof.
  unfold WeatherQuery.filter_key.
  induction rows as [|q rows IH]; [reflexivity|].
  rewrite !filter_cons.
  destruct (decide (P q)), (decide (WeatherQuery.city q = c
                                    /\ WeatherQuery.ip_address q = ip));
    rewrite ?filter_cons, ?decide_True, ?decide_False by assumption;
    by rewrite IH.
Qed.

Lemma filter_all {A : Type} (P : A -> Prop) `{!forall x, Decision (P x)}
    (l : list A) :
  Forall P l -> filter P l = l.
Proof.
  induction 1 as [|x l Hx _ IH]; [reflexivity|].
  by rewrite filter_cons_True, IH.
Qed.

Lemma filter_none {A : Type} (P : A -> Prop) `{!forall x, Decision (P x)}
    (l : list A) :
  Forall (fun x => ~ P x) l -> filter P l = [].
Proof.
  induction 1 as [|x l Hx _ IH]; [reflexivity|].
  by rewrite filter_cons_False.
Qed.

Lemma filter_drop_ids (l1 l2 : list WeatherQuery.t) :
  NoDup (fmap WeatherQuery.id (l1 ++ l2)) ->
  filter (fun q => WeatherQuery.id q ∉ fmap WeatherQuery.id l2) (l1 ++ l2) = l1.
Proof.
  intros Hnd. rewrite fmap_app in Hnd. apply NoDup_app in Hnd as (_ & Hdisj & _).
  rewrite filter_app, filter_all, filter_none; [apply app_nil_r| |].
  - apply Forall_forall. intros q Hq Hnot. apply Hnot.
    by apply list_elem_of_fmap_2.
  - apply Forall_forall. intros q Hq. apply Hdisj.
    by apply list_elem_of_fmap_2.
Qed.

Lemma ids_determine_rows (l : list WeatherQuery.t) (q r : WeatherQuery.t) :
  NoDup (fmap WeatherQuery.id l) -> q ∈ l -> r ∈ l ->
  WeatherQuery.id q = WeatherQuery.id r -> q = r.
Proof.
  induction l as [|x l IH]; simpl; intros Hnd Hq Hr Hid; [by inv Hq|].
  apply NoDup_cons in Hnd as [Hx Hnd].
  apply elem_of_cons in Hq as [->|Hq]; apply elem_of_cons in Hr as [->|Hr].
  - reflexivity.
  - destruct Hx. rewrite Hid. by apply list_elem_of_fmap_2.
  - destruct Hx. rewrite <- Hid. by apply list_elem_of_fmap_2.
  - by apply IH.
Qed.

Lemma filter_key_ids_nodup (c ip : pystr) (rows : list WeatherQuery.t) :
  NoDup (fmap WeatherQuery.id rows) ->
  NoDup (fmap WeatherQuery.id (WeatherQuery.filter_key c ip rows)).
Proof.
  intros H. unfold WeatherQuery.filter_key.
  eapply sublist_NoDup; [exact H|]. apply fmap_sublist, sublist_filter.
Qed.

(** What the trim keeps of the key is, up to order, the first [limit] rows
    of the key in the order of the query; the rows of other keys stay. *)
Lemma cleanup_keeps_first (E : Env) (c ip : pystr) (limit : Z)
    (rows : list WeatherQuery.t) :
  (0 <= limit)%Z ->
  NoDup (fmap WeatherQuery.id rows) ->
  exists rows',
    WeatherQuery.cleanup_old_queries E c ip limit rows = Return rows'
    /\ WeatherQuery.filter_key c ip rows'
       ≡ₚ take (Z.to_nat limit)
            (WeatherQuery.order_by_created_desc E
               (WeatherQuery.filter_key c ip rows))
    /\ sublist rows' rows
    /\ (forall q, q ∈ rows ->
          ~ (WeatherQuery.city q = c /\ WeatherQuery.ip_address q = ip) ->
          q ∈ rows').
Proof.
  intros Hlimit Hnd. unfold WeatherQuery.cleanup_old_queries.
  set (K := WeatherQuery.filter_key c ip rows).
  set (sorted := WeatherQuery.order_by_created_desc E K).
  assert (Hperm : sorted ≡ₚ K) by apply order_by_perm.
  case_bool_decide as Hcount.
  - rewrite bool_decide_eq_false_2 by lia.
    eexists. split; [reflexivity|]. split; [|split].
    + rewrite filter_key_filter. fold K. rewrite <- Hperm.
      pose proof (filter_drop_ids (take (Z.to_nat limit) sorted)
                    (drop (Z.to_nat limit) sorted)) as Hkeep.
      rewrite take_drop in Hkeep. rewrite Hkeep; [reflexivity|].
      rewrite Hperm. by apply filter_key_ids_nodup.
    + apply sublist_filter.
    + intros q Hq Hkey. apply list_elem_of_filter. split; [|exact Hq].
      intros Hin. apply list_elem_of_fmap in Hin as (r & Hid & Hr).
      assert (Hr' : r ∈ sorted).
      { rewrite <- (take_drop (Z.to_nat limit) sorted). apply elem_of_app.
        by right. }
      rewrite Hperm in Hr'. apply filter_key_spec in Hr' as (Hr' & Hrkey).
      assert (q = r) by (by eapply ids_determine_rows).
      by subst.
  - exists rows. split; [reflexivity|]. split; [|split; [reflexivity|auto]].
    fold K. fold sorted. fold K sorted in Hcount.
    rewrite take_ge; [by symmetry|]. lia.
Qed.

Lemma times_sorted (l : list WeatherQuery.t) :
  StronglySorted newer_or_equal l ->
  StronglySorted later_or_equal (fmap WeatherQuery.created_at l).
Proof.
  induction 1 as [|q l Hl IH Hq]; simpl; constructor; [exact IH|].
  apply Forall_fmap. exact Hq.
Qed.

Lemma later_or_equal_unique (l1 l2 : list Z) :
  StronglySorted later_or_equal l1 -> StronglySorted later_or_equal l2 ->
  l1 ≡ₚ l2 -> l1 = l2.
Proof.
  apply StronglySorted_unique_strong.
  unfold later_or_equal. intros; lia.
Qed.

Lemma order_times_perm (E E' : Env) (l l' : list WeatherQuery.t) :
  l ≡ₚ l' ->
  fmap WeatherQuery.created_at (WeatherQuery.order_by_created_desc E l)
  = fmap WeatherQuery.created_at (WeatherQuery.order_by_created_desc E' l').
Proof.
  intros Hperm. apply later_or_equal_unique.
  - apply times_sorted, order_by_sorted.
  - apply times_sorted, order_by_sorted.
  - apply fmap_Permutation. by rewrite !order_by_perm.
Qed.

Lemma order_times_sorted (E : Env) (l : list WeatherQuery.t) :
  StronglySorted newer_or_equal l ->
  fmap WeatherQuery.created_at (WeatherQuery.order_by_created_desc E l)
  = fmap WeatherQuery.created_at l.
Proof.
  intros Hl. apply later_or_equal_unique.
  - apply times_sorted, order_by_sorted.
  - by apply times_sorted.
  - apply fmap_Permutation, order_by_perm.
Qed.

Lemma take_app_take {A : Type} (n : nat) (a b : list A) :
  take n (a ++ take n b) = take n (a ++ b).
Proof.
  rewrite !take_app. f_equal. rewrite take_take. f_equal. lia.
Qed.

(** One successful cache-miss fetch: the instants of the key become the
    instant of the call followed by the former ones, cut to 10. *)
Lemma fetch_key_times (E : Env) (ws : weather_service_t) (city ip : pystr)
    (t : Z) (f : Faults) (w : World) :
  database_ok (database w) ->
  Forall (fun x => (x <= t)%Z) (key_times E (strip_title city) ip (database w)) ->
  fresh_fetch E ws city t f w = true ->
  database_ok (database (fst (GetWeatherUseCase.execute E ws f t city ip w)))
  /\ key_times E (strip_title city) ip
       (database (fst (GetWeatherUseCase.execute E ws f t city ip w)))
     = take 10 (t :: key_times E (strip_title city) ip (database w)).
Proof.
  intros [Hnd Hids] Hold Hfresh. unfold fresh_fetch in Hfresh.
  rewrite !andb_true_iff, !negb_true_iff in Hfresh.
  destruct Hfresh as (((Hmiss & Hws) & Hcreate) & Hdelete).
  destruct (ws t (strip_title city)) as [d|] eqn:Hd; [|discriminate].
  rewrite (execute_miss E ws f t city ip w d Hmiss Hd). simpl.
  unfold GetWeatherUseCase._save_to_history,
    DjangoWeatherQueryRepository.save_query,
    DjangoWeatherQueryRepository.cleanup_old_queries.
  rewrite Hcreate, Hdelete. simpl.
  set (c := strip_title city).
  set (q := DjangoWeatherQueryRepository.new_query (next_id (database w)) t c
              ip (fetched E t d)).
  assert (Hnd' : NoDup (fmap WeatherQuery.id (rows (database w) ++ [q]))).
  { rewrite fmap_app. apply NoDup_app. split; [exact Hnd|]. split.
    - intros i Hi Hq. apply list_elem_of_fmap in Hi as (r & -> & Hr).
      rewrite Forall_forall in Hids. specialize (Hids r Hr).
      simpl in Hq. apply list_elem_of_singleton in Hq. simpl in Hq. lia.
    - apply NoDup_singleton. }
  destruct (cleanup_keeps_first E c ip 10 (rows (database w) ++ [q])
              ltac:(lia) Hnd') as (rows' & -> & Hkept & Hsub & _).
  simpl. split.
  - split; simpl.
    + eapply sublist_NoDup; [exact Hnd'|]. by apply fmap_sublist.
    + apply Forall_forall. intros r Hr.
      apply (sublist_subseteq _ _ Hsub) in Hr.
      apply elem_of_app in Hr as [Hr|Hr].
      * rewrite Forall_forall in Hids. specialize (Hids r Hr). lia.
      * apply list_elem_of_singleton in Hr. subst r. simpl. lia.
  - unfold key_times. simpl.
    set (K := WeatherQuery.filter_key c ip (rows (database w))) in *.
    assert (HK : WeatherQuery.filter_key c ip (rows (database w) ++ [q])
                 = K ++ [q]).
    { unfold WeatherQuery.filter_key. rewrite filter_app.
      rewrite (filter_all _ [q]); [reflexivity|]. by repeat constructor. }
    rewrite HK in Hkept.
    rewrite (order_times_perm E E _ _ Hkept).
    rewrite order_times_sorted
      by (apply StronglySorted_take, order_by_sorted).
    rewrite fmap_take. change (Z.to_nat 10) with 10%nat. f_equal.
    assert (Hq : K ++ [q] ≡ₚ q :: WeatherQuery.order_by_created_desc E K).
    { rewrite order_by_perm. symmetry. apply Permutation_cons_append. }
    rewrite (order_times_perm E E _ _ Hq).
    rewrite order_times_sorted; [reflexivity|].
    constructor; [apply order_by_sorted|].
    unfold key_times in Hold. rewrite Forall_fmap in Hold.
    eapply Forall_impl; [exact Hold|].
    intros r Hr. unfold newer_or_equal. simpl in *. exact Hr.
Qed.

(** A run of successful cache-miss fetches at instants that do not decrease,
    all of them at or after the instants already stored for the key. *)
Lemma run_key_times (E : Env) (ws : weather_service_t) (city ip : pystr)
    (steps : list step) (w : World) :
  database_ok (database w) ->
  fresh_run E ws city ip steps w = true ->
  StronglySorted Z.le (fetch_times steps) ->
  (forall x t, x ∈ key_times E (strip_title city) ip (database w) ->
               t ∈ fetch_times steps -> (x <= t)%Z) ->
  database_ok (database (run E ws city ip steps w))
  /\ key_times E (strip_title city) ip (database (run E ws city ip steps w))
     = match fetch_times steps with
       | [] => key_times E (strip_title city) ip (database w)
       | _ =>
           take 10 (rev (fetch_times steps)
                    ++ key_times E (strip_title city) ip (database w))
       end.
Proof.
  revert w. induction steps as [|[t f|f c] steps IH];
    intros w Hok Hfresh Hsorted Hold; simpl in *.
  - by split.
  - apply andb_true_iff in Hfresh as [Hfetch Hrest].
    apply StronglySorted_cons in Hsorted as [Ht Hsorted].
    assert (Hold_t : Forall (fun x => (x <= t)%Z)
                       (key_times E (strip_title city) ip (database w))).
    { apply Forall_forall. intros x Hx. apply Hold; [exact Hx|left]. }
    destruct (fetch_key_times E ws city ip t f w Hok Hold_t Hfetch)
      as [Hok1 Htimes1].
    set (w1 := fst (GetWeatherUseCase.execute E ws f t city ip w)) in *.
    destruct (IH w1 Hok1 Hrest Hsorted) as [Hok' Htimes'].
    { intros x t' Hx Ht'. rewrite Htimes1 in Hx.
      apply elem_of_take in Hx as (i & Hx & _).
      apply list_elem_of_lookup_2 in Hx.
      apply elem_of_cons in Hx as [->|Hx].
      - rewrite Forall_forall in Ht. by apply Ht.
      - apply Hold; [exact Hx|by right]. }
    split; [exact Hok'|]. rewrite Htimes', Htimes1.
    destruct (fetch_times steps) as [|t' ts]; [reflexivity|].
    rewrite take_app_take. f_equal.
    by rewrite <- app_assoc.
  - apply (IH (InvalidateCacheUseCase.execute f c w)); assumption.
Qed.

(** C3, as amended.  A cleanup of a key with a limit that is not negative,
    on a table with unique primary keys, leaves at most [limit] rows of the
    key (all of them when they are fewer), leaves the rows of other keys
    alone, and keeps rows at least as recent as every row it removes; rows
    with equal [created_at] are kept or removed in the order in which the
    database returns them for [ORDER BY created_at DESC] (the code does not
    order by primary key), so the kept rows are those the specification
    names whenever the instants of the key are pairwise distinct.
    Consequently, after more than 10 successful cache-miss fetches of one
    (city, client) at instants that do not decrease, GetHistory with limit 50
    returns exactly 10 rows, newest first, created at the instants of the
    last 10 fetches. *)
Theorem C3_history_retention (E : Env) (ws : weather_service_t)
    (city ip c' ip' : pystr) (limit : Z) (steps : list step) (w : World)
    (f : Faults) :
  database_ok (database w) ->
  ((0 <= limit)%Z ->
   exists rows',
     WeatherQuery.cleanup_old_queries E c' ip' limit (rows (database w))
       = Return rows'
     /\ length (WeatherQuery.filter_key c' ip' rows')
        = Nat.min (Z.to_nat limit)
            (length (WeatherQuery.filter_key c' ip' (rows (database w))))
     /\ sublist rows' (rows (database w))
     /\ (forall q, q ∈ rows (database w) ->
           ~ (WeatherQuery.city q = c' /\ WeatherQuery.ip_address q = ip') ->
           q ∈ rows')
     /\ (forall q r,
           q ∈ WeatherQuery.filter_key c' ip' rows' ->
           r ∈ WeatherQuery.filter_key c' ip' (rows (database w)) ->
           r ∉ rows' -> newer_or_equal q r)
     /\ (NoDup (fmap WeatherQuery.created_at
                  (WeatherQuery.filter_key c' ip' (rows (database w)))) ->
         WeatherQuery.filter_key c' ip' rows'
         ≡ₚ spec_retained E c' ip' (Z.to_nat limit) (rows (database w))))
  /\ (fresh_run E ws city ip steps w = true ->
      StronglySorted Z.le (fetch_times steps) ->
      (forall x t, x ∈ key_times E (strip_title city) ip (database w) ->
                   t ∈ fetch_times steps -> (x <= t)%Z) ->
      10 < length (fetch_times steps) ->
      db_select_raises f = false ->
      exists data,
        GetWeatherHistoryUseCase.execute E f city ip 50
          (run E ws city ip steps w) = Return data
        /\ length (GetWeatherHistoryUseCase.queries data) = 10
        /\ GetWeatherHistoryUseCase.total data = 10%Z
        /\ StronglySorted newer_or_equal (GetWeatherHistoryUseCase.queries data)
        /\ fmap WeatherQuery.created_at (GetWeatherHistoryUseCase.queries data)
           = take 10 (rev (fetch_times steps))).
Proof.
  intros Hok. split.
  - intros Hlimit. destruct Hok as [Hnd _].
    destruct (cleanup_keeps_first E c' ip' limit (rows (database w)) Hlimit Hnd)
      as (rows' & Hclean & Hkept & Hsub & Hothers).
    exists rows'. split; [exact Hclean|].
    set (K := WeatherQuery.filter_key c' ip' (rows (database w))) in *.
    set (sorted := WeatherQuery.order_by_created_desc E K) in *.
    assert (Hperm : sorted ≡ₚ K) by apply order_by_perm.
    split; [|split; [exact Hsub|split; [exact Hothers|split]]].
    + rewrite Hkept, length_take, <- Hperm. reflexivity.
    + intros q r Hq Hr Hgone. rewrite Hkept in Hq.
      assert (Hr' : r ∈ drop (Z.to_nat limit) sorted).
      { rewrite <- Hperm, <- (take_drop (Z.to_nat limit) sorted) in Hr.
        apply elem_of_app in Hr as [Hr|Hr]; [|exact Hr].
        rewrite <- Hkept in Hr. apply filter_key_spec in Hr as [Hr _]. done. }
      pose proof (order_by_sorted E K) as Hs. fold sorted in Hs.
      rewrite <- (take_drop (Z.to_nat limit) sorted) in Hs.
      eapply StronglySorted_app_1_elem_of; eassumption.
    + intros Hdistinct. rewrite Hkept. unfold spec_retained. fold K.
      match goal with
      | |- take _ ?a ≡ₚ take _ ?b => assert (Hab : a = b); [|by rewrite Hab]
      end.
      apply (StronglySorted_unique_strong newer_or_equal);
        try apply order_by_sorted.
      * intros q r Hq Hr Hqr Hrq. unfold newer_or_equal in *.
        rewrite Hperm in Hq. rewrite order_by_perm in Hr.
        assert (Heq : WeatherQuery.created_at q = WeatherQuery.created_at r)
          by lia.
        clear Hqr Hrq. revert Hq Hr Heq Hdistinct. generalize K.
        induction K0 as [|x K0 IH]; intros Hq Hr Heq Hd; [by inv Hq|].
        rewrite fmap_cons in Hd. apply NoDup_cons in Hd as [Hx Hd].
        apply elem_of_cons in Hq as [->|Hq];
          apply elem_of_cons in Hr as [->|Hr].
        -- reflexivity.
        -- destruct Hx. rewrite Heq. by apply list_elem_of_fmap_2.
        -- destruct Hx. rewrite <- Heq. by apply list_elem_of_fmap_2.
        -- by apply IH.
      * by rewrite Hperm, order_by_perm.
  - intros Hfresh Hsorted Hold Hmany Hselect.
    destruct (run_key_times E ws city ip steps w Hok Hfresh Hsorted Hold)
      as [_ Htimes].
    eexists. split; [reflexivity|]. simpl.
    unfold DjangoWeatherQueryRepository.get_history. rewrite Hselect.
    rewrite bool_decide_eq_false_2 by lia.
    change (Z.to_nat 50) with 50%nat.
    unfold key_times in Htimes.
    set (qs := WeatherQuery.order_by_created_desc E _) in *.
    assert (Hts : fmap WeatherQuery.created_at (take 50 qs)
                  = take 10 (rev (fetch_times steps))).
    { rewrite fmap_take, Htimes.
      destruct (fetch_times steps) as [|t ts] eqn:Hft; [simpl in Hmany; lia|].
      rewrite <- Hft in *. rewrite take_take.
      rewrite take_app_le by (rewrite length_rev; lia). reflexivity. }
    assert (Hlen : length (take 50 qs) = 10).
    { rewrite <- (length_fmap WeatherQuery.created_at), Hts, length_take,
        length_rev. lia. }
    split; [exact Hlen|]. split; [by rewrite Hlen|].
    split; [apply StronglySorted_take, order_by_sorted|exact Hts].
Qed.

Lemma C3_witness :
  database_ok (database Sample.empty_world)
  /\ fresh_run Sample.E0 Sample.mock Sample.sao_paulo_lower Sample.client
       Sample.eleven_fetches Sample.empty_world = true
  /\ 10 < length (fetch_times Sample.eleven_fetches)
  /\ exists data,
       GetWeatherHistoryUseCase.execute Sample.E0 no_faults
         Sample.sao_paulo_lower Sample.client 50
         (run Sample.E0 Sample.mock Sample.sao_paulo_lower Sample.client
            Sample.eleven_fetches Sample.empty_world) = Return data
       /\ length (GetWeatherHistoryUseCase.queries data) = 10
       /\ fmap WeatherQuery.created_at (GetWeatherHistoryUseCase.queries data)
          = [600; 540; 480; 420; 360; 300; 240; 180; 120; 60]%Z.
Proof.
  assert (Hok : database_ok (database Sample.empty_world))
    by (split; constructor).
  assert (Hfresh : fresh_run Sample.E0 Sample.mock Sample.sao_paulo_lower
                     Sample.client Sample.eleven_fetches Sample.empty_world
                   = true) by (vm_compute; reflexivity).
  assert (Hmany : 10 < length (fetch_times Sample.eleven_fetches))
    by (vm_compute; lia).
  assert (Hsorted : StronglySorted Z.le (fetch_times Sample.eleven_fetches)).
  { simpl. repeat (constructor; [|repeat (constructor; [lia|])]).
    all: try constructor. }
  assert (Hold : forall x t,
            x ∈ key_times Sample.E0 (strip_title Sample.sao_paulo_lower)
                  Sample.client (database Sample.empty_world) ->
            t ∈ fetch_times Sample.eleven_fetches -> (x <= t)%Z).
  { intros x t Hx. by inv Hx. }
  split; [exact Hok|]. split; [exact Hfresh|]. split; [exact Hmany|].
  destruct (proj2 (C3_history_retention Sample.E0 Sample.mock
                     Sample.sao_paulo_lower Sample.client Sample.sao_paulo
                     Sample.client 10 Sample.eleven_fetches Sample.empty_world
                     no_faults Hok) Hfresh Hsorted Hold Hmany eq_refl)
    as (data & Hdata & Hlen & _ & _ & Htimes).
  exists data. split; [exact Hdata|]. split; [exact Hlen|]. exact Htimes.
Defined.

(** The claim as worded fails on ties.  Two rows of one key with the same
    [created_at], trimmed to 1 on a database that returns equal instants in
    storage order: the row kept is the one with primary key 1, where the
    specification keeps the higher primary key 2. *)
Lemma C3_counterexample :
  exists kept,
    WeatherQuery.cleanup_old_queries Sample.E0 Sample.sao_paulo Sample.client 1
      Sample.tied_rows = Return kept
    /\ fmap WeatherQuery.id
         (WeatherQuery.filter_key Sample.sao_paulo Sample.client kept) = [1%Z]
    /\ fmap WeatherQuery.id
         (spec_retained Sample.E0 Sample.sao_paulo Sample.client 1
            Sample.tied_rows) = [2%Z].
Proof. eexists. split; [vm_compute; reflexivity|]. by vm_compute. Qed.

(** * Further properties *)

(** ** Expiry and invalidation of cache entries *)


Lemma cache_hit_same_store (E : Env) (f : Faults) (now : Z) (city : pystr)
    (w w' : World) :
  cache w' = cache w -> cache_hit E f now city w' = cache_hit E f now city w.
Proof. unfold cache_hit. by intros ->. Qed.









(** X4.  A fetch that fails leaves no trace: when the call is a miss and the
    provider raises, the cache entries and the history table are exactly as
    before, the caller gets a [WeatherServiceException], and the failure is
    not remembered, so every later call sees the cache as it was. *)
Theorem failed_fetch_leaves_no_trace (E : Env) (ws : weather_service_t)
    (f : Faults) (now : Z) (city ip : pystr) (w : World) (e : exn) :
  cache_hit E f now city w = false ->
  ws now (strip_title city) = Raise e ->
  let w1 := fst (GetWeatherUseCase.execute E ws f now city ip w) in
  cache w1 = cache w
  /\ database w1 = database w
  /\ (exists m, snd (GetWeatherUseCase.execute E ws f now city ip w)
               = Raise (WeatherServiceException m))
  /\ (forall f2 t city2, cache_hit E f2 t city2 w1 = cache_hit E f2 t city2 w).
Proof.
  intros Hmiss Hws w1. subst w1.
  rewrite (execute_miss_raise E ws f now city ip w e Hmiss Hws). simpl.
  split; [reflexivity|]. split; [reflexivity|]. split; [by eexists|].
  intros f2 t city2. reflexivity.
Qed.

Lemma failed_fetch_leaves_no_trace_witness :
  let w1 := fst (GetWeatherUseCase.execute Sample.E0 Sample.mock no_faults 110
                   (py "notfound") Sample.client Sample.warm_world) in
  cache w1 = cache Sample.warm_world
  /\ database w1 = database Sample.warm_world
  /\ (exists m, snd (GetWeatherUseCase.execute Sample.E0 Sample.mock no_faults
                       110 (py "notfound") Sample.client Sample.warm_world)
               = Raise (WeatherServiceException m))
  /\ (forall f2 t city2,
        cache_hit Sample.E0 f2 t city2 w1
        = cache_hit Sample.E0 f2 t city2 Sample.warm_world).
Proof.
  apply (failed_fetch_leaves_no_trace Sample.E0 Sample.mock no_faults 110
           (py "notfound") Sample.client Sample.warm_world
           (WeatherServiceException (MsgCityNotFound (py "Notfound"))));
    reflexivity.
Defined.

(** ** Invariants of the history table *)











(** The trim of one key leaves the rows of every other key in place. *)
Lemma repo_cleanup_other_keys (E : Env) (f : Faults) (c ip c' ip' : pystr)
    (limit : Z) (db : Database) :
  NoDup (fmap WeatherQuery.id (rows db)) ->
  (c', ip') <> (c, ip) ->
  WeatherQuery.filter_key c' ip'
    (rows (DjangoWeatherQueryRepository.cleanup_old_queries E f c ip limit db))
  = WeatherQuery.filter_key c' ip' (rows db).
Proof.
  intros Hnd Hkey. unfold DjangoWeatherQueryRepository.cleanup_old_queries.
  destruct (db_delete_raises f); [reflexivity|].
  unfold WeatherQuery.cleanup_old_queries.
  case_bool_decide; [|reflexivity]. case_bool_decide; [reflexivity|]. simpl.
  rewrite filter_key_filter. apply filter_all. apply Forall_forall.
  intros q Hq Hin. apply filter_key_spec in Hq as (Hq & Hc & Hip).
  apply list_elem_of_fmap in Hin as (r & Hid & Hr).
  assert (Hr' : r ∈ WeatherQuery.order_by_created_desc E
                      (WeatherQuery.filter_key c ip (rows db))).
  { rewrite <- (take_drop (Z.to_nat limit)). apply elem_of_app. by right. }
  rewrite order_by_perm in Hr'. apply filter_key_spec in Hr' as (Hr' & Hrc & Hrip).
  assert (q = r) by (by eapply ids_determine_rows). subst r.
  apply Hkey. by rewrite <- Hc, <- Hip, Hrc, Hrip.
Qed.










(** ** The trim of one key *)

Lemma repo_cleanup_key_length (E : Env) (f : Faults) (c ip : pystr)
    (limit : Z) (db : Database) :
  database_ok db -> (0 <= limit)%Z -> db_delete_raises f = false ->
  length (WeatherQuery.filter_key c ip
            (rows (DjangoWeatherQueryRepository.cleanup_old_queries E f c ip
                     limit db)))
  = Z.to_nat limit `min` length (WeatherQuery.filter_key c ip (rows db)).
Proof.
  intros [Hnd _] Hlimit Hdel.
  unfold DjangoWeatherQueryRepository.cleanup_old_queries. rewrite Hdel.
  destruct (cleanup_keeps_first E c ip limit (rows db) Hlimit Hnd)
    as (rows' & -> & Hperm & _).
  simpl. rewrite Hperm, length_take. by rewrite order_by_perm.
Qed.

Lemma repo_cleanup_within_limit (E : Env) (f : Faults) (c ip : pystr)
    (limit : Z) (db : Database) :
  (0 <= limit)%Z ->
  length (WeatherQuery.filter_key c ip (rows db)) <= Z.to_nat limit ->
  DjangoWeatherQueryRepository.cleanup_old_queries E f c ip limit db = db.
Proof.
  intros Hlimit Hlen.
  unfold DjangoWeatherQueryRepository.cleanup_old_queries.
  destruct (db_delete_raises f); [reflexivity|].
  unfold WeatherQuery.cleanup_old_queries.
  rewrite bool_decide_eq_false_2; [by destruct db|].
  rewrite (Permutation_length (order_by_perm E _)). lia.
Qed.

(** X9.  CleanupHistory is idempotent and exact: with well-formed primary
    keys and a limit that is not negative, running it a second time changes
    nothing; when the deletion works the key is left with the smaller of
    [limit] and the number of rows it had; and the rows of every other key
    are left in place. *)
Theorem cleanup_history_is_idempotent (E : Env) (f : Faults)
    (c ip c' ip' : pystr) (limit : Z) (w : World) :
  database_ok (database w) ->
  (0 <= limit)%Z ->
  let w1 := CleanupHistoryUseCase.execute E f c ip limit w in
  CleanupHistoryUseCase.execute E f c ip limit w1 = w1
  /\ (db_delete_raises f = false ->
      length (WeatherQuery.filter_key c ip (rows (database w1)))
      = Z.to_nat limit
        `min` length (WeatherQuery.filter_key c ip (rows (database w))))
  /\ ((c', ip') <> (c, ip) ->
      WeatherQuery.filter_key c' ip' (rows (database w1))
      = WeatherQuery.filter_key c' ip' (rows (database w))).
Proof.
  intros Hok Hlimit w1. split; [|split].
  - subst w1. unfold CleanupHistoryUseCase.execute. simpl. f_equal.
    destruct (db_delete_raises f) eqn:Hdel.
    + unfold DjangoWeatherQueryRepository.cleanup_old_queries.
      by rewrite Hdel.
    + apply repo_cleanup_within_limit; [exact Hlimit|].
      rewrite repo_cleanup_key_length by assumption. lia.
  - intros Hdel. subst w1. simpl. by apply repo_cleanup_key_length.
  - intros Hkey. subst w1. simpl. destruct Hok as [Hnd _].
    by apply repo_cleanup_other_keys.
Qed.

Lemma cleanup_history_is_idempotent_witness :
  let w1 := CleanupHistoryUseCase.execute Sample.E0 no_faults Sample.sao_paulo
              Sample.client 0 Sample.warm_world in
  CleanupHistoryUseCase.execute Sample.E0 no_faults Sample.sao_paulo
    Sample.client 0 w1 = w1
  /\ length (WeatherQuery.filter_key Sample.sao_paulo Sample.client
               (rows (database w1)))
     = Z.to_nat 0
       `min` length (WeatherQuery.filter_key Sample.sao_paulo Sample.client
                       (rows (database Sample.warm_world))).
Proof.
  intros w1.
  assert (Hok : database_ok (database Sample.warm_world)).
  { split; vm_compute; repeat constructor. intros H; inv H. }
  destruct (cleanup_history_is_idempotent Sample.E0 no_faults Sample.sao_paulo
              Sample.client Sample.sao_paulo Sample.client 0 Sample.warm_world
              Hok ltac:(lia)) as (Hidem & Hlen & _).
  split; [exact Hidem|exact (Hlen eq_refl)].
Defined.


(** X10.  The edge limits of CleanupHistory: a negative limit removes
    nothing (the query set refuses the negative slice and the repository
    swallows the error), while limit 0 empties the history of the key. *)
Theorem cleanup_history_edge_limits (E : Env) (f : Faults) (c ip : pystr)
    (limit : Z) (w : World) :
  ((limit < 0)%Z -> CleanupHistoryUseCase.execute E f c ip limit w = w)
  /\ (db_delete_raises f = false ->
      WeatherQuery.filter_key c ip
        (rows (database (CleanupHistoryUseCase.execute E f c ip 0 w))) = []).
Proof.
  split.
  - intros Hneg. unfold CleanupHistoryUseCase.execute,
      DjangoWeatherQueryRepository.cleanup_old_queries,
      WeatherQuery.cleanup_old_queries.
    destruct (db_delete_raises f); [by destruct w|].
    rewrite bool_decide_eq_true_2 by lia.
    rewrite bool_decide_eq_true_2 by lia. by destruct w.
  - intros Hdel. unfold CleanupHistoryUseCase.execute,
      DjangoWeatherQueryRepository.cleanup_old_queries,
      WeatherQuery.cleanup_old_queries. simpl. rewrite Hdel.
    case_bool_decide as Hcount.
    + simpl. rewrite filter_key_filter. apply filter_none.
      apply Forall_forall. intros q Hq Hnot. apply Hnot.
      apply list_elem_of_fmap_2. by rewrite order_by_perm.
    + simpl. rewrite (Permutation_length (order_by_perm E _)) in Hcount.
      destruct (WeatherQuery.filter_key c ip (rows (database w)));
        [reflexivity|simpl in Hcount; lia].
Qed.

Lemma cleanup_history_edge_limits_witness :
  CleanupHistoryUseCase.execute Sample.E0 no_faults Sample.sao_paulo
    Sample.client (-1) Sample.warm_world = Sample.warm_world
  /\ WeatherQuery.filter_key Sample.sao_paulo Sample.client
       (rows (database (CleanupHistoryUseCase.execute Sample.E0 no_faults
                          Sample.sao_paulo Sample.client 0 Sample.warm_world)))
     = [].
Proof.
  destruct (cleanup_history_edge_limits Sample.E0 no_faults Sample.sao_paulo
              Sample.client (-1) Sample.warm_world) as [Hneg Hzero].
  split; [apply Hneg; lia|exact (Hzero eq_refl)].
Defined.

(** ** The rate limit window *)

Lemma attempts_in_window (s : RateLimitMiddleware.Settings)
    (request : RateLimitMiddleware.Request) (t0 : Z) (times : list Z) :
  rate_limit_applies s request = true ->
  Forall (fun t => (t0 <= t < t0 + RateLimitMiddleware.RATE_LIMIT_WINDOW s)%Z)
    times ->
  forall (k : Z) (store : gmap pystr (Z * Z)),
    (0 <= k <= RateLimitMiddleware.RATE_LIMIT_REQUESTS s)%Z ->
    (forall t, (t0 <= t < t0 + RateLimitMiddleware.RATE_LIMIT_WINDOW s)%Z ->
       RateLimitMiddleware.current_requests store t
         (RateLimitMiddleware.get_client_ip request) = k) ->
    snd (RateLimitMiddleware.attempts s request times store)
    = replicate
        (length times
         `min` Z.to_nat (RateLimitMiddleware.RATE_LIMIT_REQUESTS s - k)) true
      ++ replicate
           (length times
            - Z.to_nat (RateLimitMiddleware.RATE_LIMIT_REQUESTS s - k)) false.
Proof.
  intros Happ. induction 1 as [|t times Ht _ IH]; intros k store Hk Hcount;
    [reflexivity|].
  simpl. rewrite (call_when_applies s t request store Happ).
  unfold RateLimitMiddleware.is_rate_limited. rewrite (Hcount t Ht).
  case_bool_decide as Hfull.
  - specialize (IH k store Hk Hcount).
    destruct (RateLimitMiddleware.attempts s request times store)
      as [store'' rs]. simpl in *. rewrite IH.
    replace (Z.to_nat (RateLimitMiddleware.RATE_LIMIT_REQUESTS s - k))
      with 0 by lia.
    rewrite Nat.min_0_r, !Nat.sub_0_r. reflexivity.
  - specialize (IH (k + 1)%Z
                  (RateLimitMiddleware.record_request s store t
                     (RateLimitMiddleware.get_client_ip request))
                  ltac:(lia)).
    destruct (RateLimitMiddleware.attempts s request times _)
      as [store'' rs]. simpl in *. rewrite IH.
    + destruct (Z.to_nat (RateLimitMiddleware.RATE_LIMIT_REQUESTS s - k))
        as [|m] eqn:Hm; [lia|].
      replace (Z.to_nat (RateLimitMiddleware.RATE_LIMIT_REQUESTS s - (k + 1)))
        with m by lia.
      reflexivity.
    + intros t' Ht'. rewrite record_request_counter.
      rewrite bool_decide_eq_true_2 by lia. by rewrite (Hcount t Ht).
Qed.

(** X11.  The boundary of the rate limit: of any number of counted requests
    that one client sends within one window length, starting with no live
    counter, exactly the first [RATE_LIMIT_REQUESTS] are passed on and all
    the following ones are answered 429. *)
Theorem burst_admits_exactly_the_limit (s : RateLimitMiddleware.Settings)
    (request : RateLimitMiddleware.Request) (t0 : Z) (times : list Z) :
  rate_limit_applies s request = true ->
  (0 <= RateLimitMiddleware.RATE_LIMIT_REQUESTS s)%Z ->
  Forall (fun t => (t0 <= t < t0 + RateLimitMiddleware.RATE_LIMIT_WINDOW s)%Z)
    times ->
  snd (RateLimitMiddleware.attempts s request times ∅)
  = replicate
      (length times `min` Z.to_nat (RateLimitMiddleware.RATE_LIMIT_REQUESTS s))
      true
    ++ replicate
         (length times - Z.to_nat (RateLimitMiddleware.RATE_LIMIT_REQUESTS s))
         false.
Proof.
  intros Happ Hlimit Htimes.
  rewrite (attempts_in_window s request t0 times Happ Htimes 0 ∅);
    [by rewrite Z.sub_0_r|lia|].
  intros t _. apply empty_store_counter.
Qed.

Lemma burst_admits_exactly_the_limit_witness :
  snd (RateLimitMiddleware.attempts Sample.settings
         (Sample.request_to Sample.weather_path) [0; 1; 1; 2; 30; 31; 59]%Z ∅)
  = [true; true; true; true; true; false; false].
Proof.
  apply (burst_admits_exactly_the_limit Sample.settings
           (Sample.request_to Sample.weather_path) 0
           [0; 1; 1; 2; 30; 31; 59]%Z).
  - reflexivity.
  - simpl. lia.
  - repeat constructor; simpl; lia.
Defined.

(** X12.  A block ends one window after the last admitted request and
    rejections do not prolong it: while the stored counter of a client has
    reached the limit, every attempt before the expiry of the entry is
    answered 429 and leaves the store as it is; the first attempt at or after
    the expiry is passed on and restarts the counter at 1. *)
Theorem block_ends_when_the_entry_expires (s : RateLimitMiddleware.Settings)
    (request : RateLimitMiddleware.Request) (store : gmap pystr (Z * Z))
    (n expires t : Z) (times : list Z) :
  rate_limit_applies s request = true ->
  (1 <= RateLimitMiddleware.RATE_LIMIT_REQUESTS s)%Z ->
  store !! RateLimitMiddleware.cache_key
             (RateLimitMiddleware.get_client_ip request) = Some (n, expires) ->
  (RateLimitMiddleware.RATE_LIMIT_REQUESTS s <= n)%Z ->
  Forall (fun t' => (t' < expires)%Z) times ->
  (expires <= t)%Z ->
  RateLimitMiddleware.attempts s request times store
  = (store, replicate (length times) false)
  /\ RateLimitMiddleware.call s t request store
     = (<[RateLimitMiddleware.cache_key
            (RateLimitMiddleware.get_client_ip request)
          := (1%Z, (t + RateLimitMiddleware.RATE_LIMIT_WINDOW s)%Z)]> store,
        RateLimitMiddleware.GetResponse).
Proof.
  intros Happ Hlimit Hentry Hfull Htimes Hlate. split.
  - induction Htimes as [|t' times Ht' _ IH]; [reflexivity|].
    simpl. rewrite (call_when_applies s t' request store Happ).
    unfold RateLimitMiddleware.is_rate_limited,
      RateLimitMiddleware.current_requests, Cache.get.
    rewrite Hentry. rewrite (bool_decide_eq_true_2 (t' < expires)%Z Ht').
    simpl. rewrite bool_decide_eq_true_2 by lia. by rewrite IH.
  - rewrite (call_when_applies s t request store Happ).
    unfold RateLimitMiddleware.is_rate_limited,
      RateLimitMiddleware.record_request,
      RateLimitMiddleware.current_requests, Cache.get, Cache.set.
    rewrite Hentry. rewrite (bool_decide_eq_false_2 (t < expires)%Z) by lia.
    simpl. rewrite bool_decide_eq_false_2 by lia. reflexivity.
Qed.

Lemma block_ends_when_the_entry_expires_witness :
  let request := Sample.request_to Sample.weather_path in
  let key := RateLimitMiddleware.cache_key (Some Sample.client) in
  let store : gmap pystr (Z * Z) := {[ key := (5%Z, 160%Z) ]} in
  RateLimitMiddleware.attempts Sample.settings request [100; 120; 159]%Z store
  = (store, [false; false; false])
  /\ RateLimitMiddleware.call Sample.settings 160 request store
     = (<[key := (1%Z, 220%Z)]> store, RateLimitMiddleware.GetResponse).
Proof.
  intros request key store.
  apply (block_ends_when_the_entry_expires Sample.settings request store 5 160
           160 [100; 120; 159]%Z).
  - reflexivity.
  - simpl. lia.
  - subst store. apply lookup_singleton_eq.
  - simpl. lia.
  - repeat constructor; lia.
  - lia.
Defined.

(** ** Client identities *)

Lemma cache_key_inj (a b : pystr) :
  RateLimitMiddleware.cache_key (Some a) = RateLimitMiddleware.cache_key (Some b)
  -> a = b.
Proof. unfold RateLimitMiddleware.cache_key. apply app_inv_head. Qed.

Lemma call_store_other_key (s : RateLimitMiddleware.Settings) (now : Z)
    (request : RateLimitMiddleware.Request) (store : gmap pystr (Z * Z))
    (key : pystr) :
  key <> RateLimitMiddleware.cache_key
           (RateLimitMiddleware.get_client_ip request) ->
  fst (RateLimitMiddleware.call s now request store) !! key = store !! key.
Proof.
  intros Hkey. destruct (rate_limit_applies s request) eqn:Happ.
  - rewrite (call_when_applies s now request store Happ).
    destruct (RateLimitMiddleware.is_rate_limited _ _ _ _); [reflexivity|].
    simpl. unfold RateLimitMiddleware.record_request, Cache.set.
    by rewrite lookup_insert_ne.
  - by rewrite (call_when_not_applies s now request store Happ).
Qed.

(** X13.  Clients are counted separately: a request of one client changes
    neither the counter of a client with another address nor the answer the
    middleware gives that other client. *)
Theorem clients_are_counted_separately (s : RateLimitMiddleware.Settings)
    (now t : Z) (request request2 : RateLimitMiddleware.Request)
    (store : gmap pystr (Z * Z)) (a b : pystr) :
  RateLimitMiddleware.get_client_ip request = Some a ->
  RateLimitMiddleware.get_client_ip request2 = Some b ->
  a <> b ->
  let store1 := fst (RateLimitMiddleware.call s now request store) in
  RateLimitMiddleware.current_requests store1 t (Some b)
  = RateLimitMiddleware.current_requests store t (Some b)
  /\ snd (RateLimitMiddleware.call s t request2 store1)
     = snd (RateLimitMiddleware.call s t request2 store).
Proof.
  intros Ha Hb Hab store1.
  assert (Hcount : RateLimitMiddleware.current_requests store1 t (Some b)
                   = RateLimitMiddleware.current_requests store t (Some b)).
  { unfold RateLimitMiddleware.current_requests, Cache.get. subst store1.
    rewrite call_store_other_key; [reflexivity|].
    rewrite Ha. intros Heq. apply cache_key_inj in Heq. by apply Hab. }
  split; [exact Hcount|].
  destruct (rate_limit_applies s request2) eqn:Happ.
  - rewrite !(call_when_applies s t request2 _ Happ).
    unfold RateLimitMiddleware.is_rate_limited. rewrite Hb, Hcount.
    by case_bool_decide.
  - by rewrite !(call_when_not_applies s t request2 _ Happ).
Qed.

Lemma clients_are_counted_separately_witness :
  let store1 :=
    fst (RateLimitMiddleware.call Sample.settings 0
           (Fixture.forwarded (py "10.0.0.1, 10.9.9.9")) ∅) in
  RateLimitMiddleware.current_requests store1 1 (Some Sample.client)
  = RateLimitMiddleware.current_requests ∅ 1 (Some Sample.client)
  /\ snd (RateLimitMiddleware.call Sample.settings 1
            (Sample.request_to Sample.weather_path) store1)
     = snd (RateLimitMiddleware.call Sample.settings 1
              (Sample.request_to Sample.weather_path) ∅).
Proof.
  apply (clients_are_counted_separately Sample.settings 0 1
           (Fixture.forwarded (py "10.0.0.1, 10.9.9.9"))
           (Sample.request_to Sample.weather_path) ∅ (py "10.0.0.1")
           Sample.client).
  - reflexivity.
  - reflexivity.
  - vm_compute. discriminate.
Defined.

Lemma calls_fresh_identities (s : RateLimitMiddleware.Settings)
    (requests : list (Z * RateLimitMiddleware.Request)) :
  (1 <= RateLimitMiddleware.RATE_LIMIT_REQUESTS s)%Z ->
  NoDup (fmap (fun r => RateLimitMiddleware.cache_key
                          (RateLimitMiddleware.get_client_ip r.2)) requests) ->
  forall store : gmap pystr (Z * Z),
    Forall (fun r => store !! RateLimitMiddleware.cache_key
                       (RateLimitMiddleware.get_client_ip r.2) = None)
      requests ->
    snd (calls s requests store)
    = replicate (length requests) RateLimitMiddleware.GetResponse.
Proof.
  intros Hlimit. induction requests as [|[now request] requests IH];
    intros Hnd store Hfresh; [reflexivity|].
  simpl in Hnd. apply NoDup_cons in Hnd as [Hnotin Hnd].
  apply Forall_cons in Hfresh as [Hthis Hfresh]. simpl in Hthis.
  assert (Hr : snd (RateLimitMiddleware.call s now request store)
               = RateLimitMiddleware.GetResponse).
  { destruct (rate_limit_applies s request) eqn:Happ.
    - rewrite (call_when_applies s now request store Happ).
      unfold RateLimitMiddleware.is_rate_limited,
        RateLimitMiddleware.current_requests, Cache.get.
      rewrite Hthis. simpl. by rewrite bool_decide_eq_false_2 by lia.
    - by rewrite (call_when_not_applies s now request store Happ). }
  assert (Hfresh' :
    Forall (fun r => fst (RateLimitMiddleware.call s now request store)
                       !! RateLimitMiddleware.cache_key
                            (RateLimitMiddleware.get_client_ip r.2) = None)
      requests).
  { apply Forall_forall. intros r Hin.
    rewrite Forall_forall in Hfresh. specialize (Hfresh r Hin).
    rewrite call_store_other_key; [exact Hfresh|].
    intros Heq. apply Hnotin. rewrite <- Heq.
    by apply (list_elem_of_fmap_2
                (fun r => RateLimitMiddleware.cache_key
                            (RateLimitMiddleware.get_client_ip r.2))). }
  specialize (IH Hnd _ Hfresh'). simpl.
  destruct (RateLimitMiddleware.call s now request store) as [store' r].
  simpl in *. subst r.
  destruct (calls s requests store') as [store'' rs]. simpl in *.
  by rewrite IH.
Qed.

(** X14.  The limit binds an address, not a sender: when every request of a
    sequence presents an address of its own (for instance by a fresh first
    entry of X-Forwarded-For, which the middleware takes as it comes) and the
    limit is at least 1, the middleware, starting with no counters, passes
    every one of them on, however many and however fast. *)
Theorem fresh_addresses_are_never_limited (s : RateLimitMiddleware.Settings)
    (requests : list (Z * RateLimitMiddleware.Request)) :
  (1 <= RateLimitMiddleware.RATE_LIMIT_REQUESTS s)%Z ->
  NoDup (fmap (fun r => RateLimitMiddleware.cache_key
                          (RateLimitMiddleware.get_client_ip r.2)) requests) ->
  snd (calls s requests ∅)
  = replicate (length requests) RateLimitMiddleware.GetResponse.
Proof.
  intros Hlimit Hnd. apply calls_fresh_identities; [exact Hlimit|exact Hnd|].
  apply Forall_forall. intros r _. apply lookup_empty.
Qed.

Lemma fresh_addresses_are_never_limited_witness :
  let requests :=
    (fun h => (0%Z, Fixture.forwarded (py h))) <$>
      ["1.1.1.1"; "1.1.1.2"; "1.1.1.3"; "1.1.1.4"; "1.1.1.5";
       "1.1.1.6"; "1.1.1.7"]%string in
  snd (calls Sample.settings requests ∅)
  = replicate (length requests) RateLimitMiddleware.GetResponse.
Proof.
  intros requests.
  apply (fresh_addresses_are_never_limited Sample.settings requests).
  - simpl. lia.
  - apply (bool_decide_unpack _). vm_compute. reflexivity.
Defined.

(** ** The provider contract *)

Lemma bind_Return_inv {A B : Type} (m : outcome A) (k : A -> outcome B) (b : B) :
  m ≫= k = Return b -> exists a, m = Return a /\ k a = Return b.
Proof. destruct m as [a|e]; simpl; [by eexists|discriminate]. Qed.

(** X15.  The error table of the OpenWeatherMap provider, in both
    directions: [get_weather] raises a [WeatherServiceException] with a given
    message exactly in the situation of that message (empty API key; status
    404, 401, any other status but 200; a transport error; a key missing
    from a 200 body), and never with the mock's message or the use-case
    wrapper. *)
Theorem openweathermap_error_table (E : Env) (api_key : pystr)
    (requests_get : pystr -> OpenWeatherMapService.http_result) (c : pystr)
    (m : message) :
  OpenWeatherMapService.get_weather E api_key requests_get c
  = Raise (WeatherServiceException m)
  <-> match m with
      | MsgNotConfigured => api_key = []
      | MsgCityNotFound c' =>
          api_key <> [] /\ c' = c
          /\ exists data,
               requests_get c = OpenWeatherMapService.Response 404 data
      | MsgInvalidKey =>
          api_key <> []
          /\ exists data,
               requests_get c = OpenWeatherMapService.Response 401 data
      | MsgApiError status =>
          api_key <> []
          /\ status <> 200%Z /\ status <> 404%Z /\ status <> 401%Z
          /\ exists data,
               requests_get c = OpenWeatherMapService.Response status data
      | MsgConnection detail =>
          api_key <> []
          /\ requests_get c = OpenWeatherMapService.RequestException detail
      | MsgParse e =>
          api_key <> []
          /\ exists data key,
               requests_get c = OpenWeatherMapService.Response 200 data
               /\ e = KeyError key
               /\ OpenWeatherMapService.weather_fields E data
                  = Raise (Builtin (KeyError key))
      | MsgMock => False
      | MsgInternal _ => False
      end.
Proof.
  unfold OpenWeatherMapService.get_weather. split.
  - case_bool_decide as Hkey; [intros H; inv H; done|].
    destruct (requests_get c) as [status data|detail];
      [|intros H; inv H; done].
    case_bool_decide as H200.
    { subst status. unfold OpenWeatherMapService._parse_weather_data.
      pose proof (weather_fields_builtin E data) as Hb.
      destruct (OpenWeatherMapService.weather_fields E data) as [d|[m'|e]]
        eqn:Hf; [discriminate|destruct Hb|].
      destruct e; intros H; inv H. split; [exact Hkey|]. by eexists _, _. }
    case_bool_decide as H404;
      [subst status; intros H; inv H; split; [done|split; [done|by eexists]]|].
    case_bool_decide as H401;
      [subst status; intros H; inv H; split; [done|by eexists]|].
    intros H; inv H. repeat (split; [done|]). by eexists.
  - destruct m as [ |c'| |status|detail|e| |e].
    + intros ->. reflexivity.
    + intros (Hkey & -> & data & ->).
      by rewrite bool_decide_eq_false_2.
    + intros (Hkey & data & ->). by rewrite bool_decide_eq_false_2.
    + intros (Hkey & H200 & H404 & H401 & data & ->).
      by rewrite !bool_decide_eq_false_2.
    + intros (Hkey & ->). by rewrite bool_decide_eq_false_2.
    + intros (Hkey & data & key & -> & -> & Hf).
      rewrite bool_decide_eq_false_2 by done. simpl.
      unfold OpenWeatherMapService._parse_weather_data. by rewrite Hf.
    + intros [].
    + intros [].
Qed.

Lemma getitem_Return_inv (v x : pyval) (key : string) :
  Py.getitem v key = Return x ->
  exists kv, v = VDict kv /\ Py.assoc key kv = Some x.
Proof.
  destruct v; try discriminate. simpl.
  destruct (Py.assoc key kv) eqn:Ha; [|discriminate].
  intros H; inv H. by eexists.
Qed.

(** X16.  The success contract of the OpenWeatherMap provider: a dictionary
    is returned only for a configured key and a status 200, and it then
    holds the nine fields, with the city name of the body, a number as
    temperature, a title-cased string as description, the provider name, the
    body itself as raw data, and wind speed 0 when the body has no "wind"
    entry. *)
Theorem openweathermap_success_contract (E : Env) (api_key : pystr)
    (requests_get : pystr -> OpenWeatherMapService.http_result) (c : pystr)
    (d : wdict) :
  OpenWeatherMapService.get_weather E api_key requests_get c = Return d ->
  exists kv,
    api_key <> []
    /\ requests_get c = OpenWeatherMapService.Response 200 (VDict kv)
    /\ Forall (fun k => is_Some (d !! k))
         ["city"; "country"; "temperature"; "description"; "humidity";
          "pressure"; "wind_speed"; "provider"; "raw_data"]%string
    /\ d !! "city" = Py.assoc "name" kv
    /\ (exists x, d !! "temperature" = Some x
                  /\ ((exists bits, x = VFloat bits) \/ (exists n, x = VInt n)))
    /\ (exists weather first text,
          Py.assoc "weather" kv = Some weather
          /\ Py.getitem0 weather = Return first
          /\ Py.getitem first "description" = Return (VStr text)
          /\ d !! "description" = Some (VStr (PyStr.title text)))
    /\ d !! "provider" = Some (VStr (py "openweathermap"))
    /\ d !! "raw_data" = Some (VDict kv)
    /\ (Py.assoc "wind" kv = None -> d !! "wind_speed" = Some (VInt 0)).
Proof.
  unfold OpenWeatherMapService.get_weather.
  case_bool_decide as Hkey; [discriminate|].
  destruct (requests_get c) as [status data|detail]; [|discriminate].
  case_bool_decide as H200;
    [|repeat (case_bool_decide; [discriminate|]); discriminate].
  subst status. unfold OpenWeatherMapService._parse_weather_data.
  destruct (OpenWeatherMapService.weather_fields E data) as [d'|[m'|e]] eqn:Hf;
    [|discriminate|destruct e; discriminate].
  intros H; inv H. unfold OpenWeatherMapService.weather_fields in Hf.
  apply bind_Return_inv in Hf as (name & Hname & Hf).
  apply bind_Return_inv in Hf as (sys & Hsys & Hf).
  apply bind_Return_inv in Hf as (country & Hcountry & Hf).
  apply bind_Return_inv in Hf as (main & Hmain & Hf).
  apply bind_Return_inv in Hf as (temp & Htemp & Hf).
  apply bind_Return_inv in Hf as (temperature & Htemperature & Hf).
  apply bind_Return_inv in Hf as (weather & Hweather & Hf).
  apply bind_Return_inv in Hf as (first & Hfirst & Hf).
  apply bind_Return_inv in Hf as (text & Htext & Hf).
  apply bind_Return_inv in Hf as (description & Hdescription & Hf).
  apply bind_Return_inv in Hf as (main2 & Hmain2 & Hf).
  apply bind_Return_inv in Hf as (humidity & Hhumidity & Hf).
  apply bind_Return_inv in Hf as (main3 & Hmain3 & Hf).
  apply bind_Return_inv in Hf as (pressure & Hpressure & Hf).
  apply bind_Return_inv in Hf as (wind & Hwind & Hf).
  apply bind_Return_inv in Hf as (wind_speed & Hwind_speed & Hf).
  inv Hf.
  apply getitem_Return_inv in Hname as (kv & -> & Hname).
  exists kv. split; [exact Hkey|]. split; [reflexivity|].
  split; [repeat constructor; by simplify_map_eq|].
  split; [by simplify_map_eq|].
  split.
  { exists temperature. split; [by simplify_map_eq|].
    destruct temp; inv Htemperature; eauto. }
  split.
  { destruct text; inv Hdescription. exists weather, first, s.
    apply getitem_Return_inv in Hweather as (kv' & Heq & Hw). inv Heq.
    split; [exact Hw|]. split; [exact Hfirst|]. split; [exact Htext|].
    by simplify_map_eq. }
  split; [by simplify_map_eq|]. split; [by simplify_map_eq|].
  intros Hnowind. simpl in Hwind. rewrite Hnowind in Hwind. inv Hwind.
  simpl in Hwind_speed. inv Hwind_speed. by simplify_map_eq.
Qed.

Lemma openweathermap_success_contract_witness :
  exists kv,
    py "key" <> []
    /\ Fixture.upstream_ok Sample.sao_paulo
       = OpenWeatherMapService.Response 200 (VDict kv)
    /\ Forall (fun k => is_Some (Fixture.parsed_weather !! k))
         ["city"; "country"; "temperature"; "description"; "humidity";
          "pressure"; "wind_speed"; "provider"; "raw_data"]%string
    /\ Fixture.parsed_weather !! "city" = Py.assoc "name" kv
    /\ (exists x, Fixture.parsed_weather !! "temperature" = Some x
                  /\ ((exists bits, x = VFloat bits) \/ (exists n, x = VInt n)))
    /\ (exists weather first text,
          Py.assoc "weather" kv = Some weather
          /\ Py.getitem0 weather = Return first
          /\ Py.getitem first "description" = Return (VStr text)
          /\ Fixture.parsed_weather !! "description"
             = Some (VStr (PyStr.title text)))
    /\ Fixture.parsed_weather !! "provider" = Some (VStr (py "openweathermap"))
    /\ Fixture.parsed_weather !! "raw_data" = Some (VDict kv)
    /\ (Py.assoc "wind" kv = None ->
        Fixture.parsed_weather !! "wind_speed" = Some (VInt 0)).
Proof.
  apply (openweathermap_success_contract Sample.E0 (py "key")
           Fixture.upstream_ok Sample.sao_paulo Fixture.parsed_weather).
  reflexivity.
Defined.

Lemma not_configured_only_without_key (E : Env) (api_key : pystr)
    (requests_get : pystr -> OpenWeatherMapService.http_result) (c : pystr) :
  OpenWeatherMapService.get_weather E api_key requests_get c
  = Raise (WeatherServiceException MsgNotConfigured) ->
  api_key = [].
Proof.
  unfold OpenWeatherMapService.get_weather.
  case_bool_decide as Hkey; [done|].
  destruct (requests_get c) as [status data|detail]; [|discriminate].
  repeat (case_bool_decide; [|try discriminate]); try discriminate.
  unfold OpenWeatherMapService._parse_weather_data.
  pose proof (weather_fields_builtin E data) as Hb.
  destruct (OpenWeatherMapService.weather_fields E data) as [d|[m|e]];
    [discriminate|destruct Hb|destruct e; discriminate].
Qed.

(** X17.  The provider of a default-constructed GetWeather use case: the
    factory never fails there; the mock is chosen exactly when the API key
    setting is empty or the placeholder of the sample configuration, and
    OpenWeatherMap otherwise; so the error "API key not configured" cannot
    reach a caller of such a use case. *)
Theorem default_provider_is_never_unconfigured (E : Env) (api_key : pystr)
    (requests_get : pystr -> OpenWeatherMapService.http_result) (now : Z)
    (c : pystr) :
  exists service,
    GetWeatherUseCaseInit.default_weather_service api_key = Return service
    /\ (service = MockWeatherServiceClass
        <-> api_key = [] \/ api_key = py "your_openweathermap_api_key_here")
    /\ GetWeatherUseCaseInit.get_weather E api_key requests_get service now c
       <> Raise (WeatherServiceException MsgNotConfigured).
Proof.
  unfold GetWeatherUseCaseInit.default_weather_service.
  destruct (decide (api_key = [])) as [Hempty|Hempty].
  - rewrite (bool_decide_eq_true_2 _ Hempty). simpl.
    exists MockWeatherServiceClass. split; [reflexivity|].
    split; [by split; [left|]|].
    simpl. unfold MockWeatherService.get_weather.
    repeat case_bool_decide; discriminate.
  - rewrite (bool_decide_eq_false_2 _ Hempty). simpl.
    case_bool_decide as Hplace.
    + exists MockWeatherServiceClass. split; [reflexivity|].
      split; [by split; [right|]|].
      simpl. unfold MockWeatherService.get_weather.
      repeat case_bool_decide; discriminate.
    + exists OpenWeatherMapServiceClass. split; [reflexivity|].
      split; [split; [discriminate|by intros [?|?]]|].
      simpl. intros Hraise.
      by apply not_configured_only_without_key in Hraise.
Qed.

(** ** The status of the weather endpoint *)













(** ** The database cache *)

(** X19.  Round trip of the database cache: what [cache_weather] stores
    under a city (insert working, data JSON-serializable)
    [get_cached_weather] returns for any spelling with the same lower-case
    form up to and including the instant [now + ttl]; after that instant the
    lookup gives [None] and deletes the entry on the way; and after
    [invalidate_cache] the lookup gives [None] at once. *)
Theorem database_cache_round_trip (E : Env) (f f2 : Faults) (now t ttl : Z)
    (c c2 : pystr) (d : wdict) (table : gmap pystr WeatherCache.t) :
  db_create_raises f = false ->
  DatabaseWeatherCacheRepository.json_serializable (fetched E now d) = true ->
  PyStr.lower c2 = PyStr.lower c ->
  db_select_raises f2 = false ->
  db_delete_raises f2 = false ->
  let table1 :=
    fst (DatabaseWeatherCacheRepository.cache_weather E f now c d ttl table) in
  ((t <= now + ttl)%Z ->
   DatabaseWeatherCacheRepository.get_cached_weather f2 t c2 table1
   = (table1, Some (fetched E now d)))
  /\ ((now + ttl < t)%Z ->
      DatabaseWeatherCacheRepository.get_cached_weather f2 t c2 table1
      = (delete (PyStr.lower c) table1, None))
  /\ snd (DatabaseWeatherCacheRepository.get_cached_weather f2 t c2
            (DatabaseWeatherCacheRepository.invalidate_cache f2 c table1))
     = None.
Proof.
  intros Hcreate Hjson Hkey Hsel Hdel table1. subst table1.
  unfold DatabaseWeatherCacheRepository.cache_weather. fold (fetched E now d).
  rewrite Hcreate, Hjson. simpl.
  unfold DatabaseWeatherCacheRepository.get_cached_weather,
    DatabaseWeatherCacheRepository.invalidate_cache.
  rewrite Hsel, Hdel, Hkey. split; [|split].
  - intros Hlive. rewrite lookup_insert_eq.
    unfold WeatherCache.is_expired. simpl.
    by rewrite bool_decide_eq_false_2 by lia.
  - intros Hdead. rewrite lookup_insert_eq.
    unfold WeatherCache.is_expired. simpl.
    by rewrite bool_decide_eq_true_2 by lia.
  - by rewrite lookup_delete_eq.
Qed.

Lemma database_cache_round_trip_witness :
  let table1 :=
    fst (DatabaseWeatherCacheRepository.cache_weather Sample.E0 no_faults 100
           Sample.sao_paulo Fixture.sao_paulo_data 600 ∅) in
  DatabaseWeatherCacheRepository.get_cached_weather no_faults 700
    Sample.sao_paulo_upper table1
  = (table1, Some (fetched Sample.E0 100 Fixture.sao_paulo_data))
  /\ DatabaseWeatherCacheRepository.get_cached_weather no_faults 701
       Sample.sao_paulo_upper table1
     = (delete (PyStr.lower Sample.sao_paulo) table1, None).
Proof.
  intros table1. split.
  - apply (database_cache_round_trip Sample.E0 no_faults no_faults 100 700 600
             Sample.sao_paulo Sample.sao_paulo_upper Fixture.sao_paulo_data ∅);
      first [reflexivity|lia].
  - apply (database_cache_round_trip Sample.E0 no_faults no_faults 100 701 600
             Sample.sao_paulo Sample.sao_paulo_upper Fixture.sao_paulo_data ∅);
      first [reflexivity|lia].
Defined.

Lemma size_filter_complement {A : Type} (P : pystr * A -> Prop)
    `{!forall x, Decision (P x)} (m : gmap pystr A) :
  Z.of_nat (size (filter P m))
  = (Z.of_nat (size m) - Z.of_nat (size (filter (fun x => ~ P x) m)))%Z.
Proof.
  assert (Hsum : size m
                 = size (filter P m) + size (filter (fun x => ~ P x) m)).
  { rewrite <- map_size_disj_union by apply map_disjoint_filter_complement.
    by rewrite map_filter_union_complement. }
  rewrite Hsum, Nat2Z.inj_add. ring.
Qed.

(** X20.  The sweep of expired database cache entries is invisible to
    readers: a lookup at the instant of [cleanup_expired] or later returns
    the same result with or without the sweep; the sweep only removes
    entries, none of those it leaves is expired, and the task running it
    reports exactly the number of entries it removed when its count and its
    deletion read the same instant. *)
Theorem cleanup_expired_is_invisible (f f2 : Faults) (now t : Z) (c : pystr)
    (table : gmap pystr WeatherCache.t) :
  (now <= t)%Z ->
  snd (DatabaseWeatherCacheRepository.get_cached_weather f t c
         (WeatherCache.cleanup_expired now table))
  = snd (DatabaseWeatherCacheRepository.get_cached_weather f t c table)
  /\ WeatherCache.cleanup_expired now table ⊆ table
  /\ map_Forall (fun _ cache_entry =>
                   WeatherCache.is_expired now cache_entry = false)
       (WeatherCache.cleanup_expired now table)
  /\ (forall table1 n,
        Tasks.cleanup_expired_cache_entries f2 now now table
        = Return (table1, n) ->
        table1 = WeatherCache.cleanup_expired now table
        /\ n = (Z.of_nat (size table) - Z.of_nat (size table1))%Z).
Proof.
  intros Hlate. split; [|split; [|split]].
  - unfold DatabaseWeatherCacheRepository.get_cached_weather.
    destruct (db_select_raises f); [reflexivity|].
    unfold WeatherCache.cleanup_expired.
    destruct (table !! PyStr.lower c) as [cache_entry|] eqn:Hentry.
    + destruct (decide (WeatherCache.expires_at cache_entry < now)%Z)
        as [Hexp|Hexp].
      * assert (Hnone : filter
                  (fun row : pystr * WeatherCache.t =>
                     ~ (WeatherCache.expires_at row.2 < now)%Z) table
                  !! PyStr.lower c = None).
        { apply map_lookup_filter_None. right. intros x Hx.
          rewrite Hentry in Hx. inv Hx. simpl. tauto. }
        rewrite Hnone. unfold WeatherCache.is_expired.
        rewrite bool_decide_eq_true_2 by lia. simpl.
        by destruct (db_delete_raises f).
      * assert (Hsome : filter
                  (fun row : pystr * WeatherCache.t =>
                     ~ (WeatherCache.expires_at row.2 < now)%Z) table
                  !! PyStr.lower c = Some cache_entry).
        { by apply map_lookup_filter_Some. }
        rewrite Hsome.
        destruct (negb (WeatherCache.is_expired t cache_entry));
          [reflexivity|]. by destruct (db_delete_raises f).
    + assert (Hnone : filter
                (fun row : pystr * WeatherCache.t =>
                   ~ (WeatherCache.expires_at row.2 < now)%Z) table
                !! PyStr.lower c = None).
      { apply map_lookup_filter_None. by left. }
      by rewrite Hnone.
  - apply map_filter_subseteq.
  - intros k cache_entry Hk. unfold WeatherCache.cleanup_expired in Hk.
    apply map_lookup_filter_Some in Hk as [_ Hk]. simpl in Hk.
    unfold WeatherCache.is_expired. by apply bool_decide_eq_false_2.
  - intros table1 n. unfold Tasks.cleanup_expired_cache_entries.
    destruct (db_select_raises f2); [discriminate|].
    destruct (db_delete_raises f2); [discriminate|].
    intros H; inv H. split; [reflexivity|].
    unfold WeatherCache.cleanup_expired.
    apply size_filter_complement.
Qed.

Lemma cleanup_expired_is_invisible_witness :
  let table : gmap pystr WeatherCache.t :=
    {[ py "recife" := {| WeatherCache.data := Fixture.sao_paulo_data;
                         WeatherCache.created_at := 0;
                         WeatherCache.expires_at := 50 |} ]} in
  snd (DatabaseWeatherCacheRepository.get_cached_weather no_faults 120
         (py "Recife") (WeatherCache.cleanup_expired 100 table))
  = snd (DatabaseWeatherCacheRepository.get_cached_weather no_faults 120
           (py "Recife") table).
Proof.
  intros table.
  exact (proj1 (cleanup_expired_is_invisible no_faults no_faults 100 120
                  (py "Recife") table ltac:(lia))).
Defined.

(** ** The periodic sweeps *)











